(** * AI-Prompt-Generator: the Figma node-tree renderer of [scr/code.ts]

    A shallow embedding of the plugin's rendering core and of the message
    handler that wraps it, followed by the properties of the specification
    that are checked against it.

    Conventions of the embedding.
    - A JavaScript string is a [string]: each [ascii] is one code unit in
      the range 0..255.
    - A JavaScript number is a [number]: NaN, the two infinities, or a
      finite value held as the exact rational it denotes.  Every finite
      IEEE-754 double is such a rational; the two zeros are not told apart
      (no operation of this program separates them: [toFixed], [ToString],
      [Math.round] and truthiness treat them alike).
    - [undefined] properties and failed ["p" in node] tests are [None];
      the [figma.mixed] sentinel is a constructor of its own. *)

From Stdlib Require Import ZArith QArith Qround Qabs Lia Lqa List Bool Ascii String.
Import ListNotations.

Open Scope string_scope.

(** ** Characters and strings *)

Definition LF : ascii := ascii_of_nat 10.
Definition CR : ascii := ascii_of_nat 13.
Definition SP : ascii := ascii_of_nat 32.
Definition DQUOTE : ascii := ascii_of_nat 34.

Definition chr (c : ascii) : string := String c EmptyString.

(** The one-character string holding a line feed: the literal ["\n"]. *)
Definition nl : string := chr LF.

(** [Array.prototype.join] on an array of strings. *)
Fixpoint join (sep : string) (l : list string) : string :=
  match l with
  | [] => EmptyString
  | [s] => s
  | s :: rest => s ++ sep ++ join sep rest
  end.

(** [String.prototype.repeat] for an integral, non-negative count. *)
Fixpoint String_repeat (s : string) (count : nat) : string :=
  match count with
  | O => EmptyString
  | S k => s ++ String_repeat s k
  end.

(** [s] occurs in [t] as a contiguous block of code units. *)
Definition contains (t s : string) : Prop :=
  exists pre post, t = pre ++ s ++ post.

(** [String.prototype.endsWith], as a boolean. *)
Fixpoint endsWith (s suffix : string) : bool :=
  if String.eqb s suffix then true
  else match s with
       | EmptyString => false
       | String _ r => endsWith r suffix
       end.

(** [String.prototype.toLowerCase] on code units below 256: the ASCII
    capitals and the Latin-1 capitals (all but the multiplication sign)
    move up by 32. *)
Definition lower_char (c : ascii) : ascii :=
  let n := nat_of_ascii c in
  if ((65 <=? n) && (n <=? 90) ||
      (192 <=? n) && (n <=? 222) && negb (n =? 215))%nat
  then ascii_of_nat (n + 32) else c.

Fixpoint toLowerCase (s : string) : string :=
  match s with
  | EmptyString => EmptyString
  | String c r => String (lower_char c) (toLowerCase r)
  end.

(** ** Numbers *)

Inductive number : Type :=
| NaN
| PosInf
| NegInf
| Fin (q : Q).

Definition num (z : Z) : number := Fin (inject_Z z).

(** Truthiness of a number: everything but zero and NaN. *)
Definition truthy (x : number) : bool :=
  match x with
  | NaN => false
  | Fin q => negb (Qnum q =? 0)%Z
  | _ => true
  end.

(** [v || d] for an optional number [v]. *)
Definition or_default (v : option number) (d : number) : number :=
  match v with
  | Some x => if truthy x then x else d
  | None => d
  end.

(** *** Decimal digits of a non-negative integer *)

Definition digit (d : Z) : ascii := ascii_of_N (Z.to_N (48 + d)).

Fixpoint decimal_fuel (fuel : nat) (n : Z) : string :=
  match fuel with
  | O => EmptyString
  | S f =>
      if (n <? 10)%Z then chr (digit n)
      else decimal_fuel f (n / 10) ++ chr (digit (n mod 10))
  end.

Definition decimal (n : Z) : string :=
  decimal_fuel (S (Z.to_nat (Z.log2 n))) n.

(** *** Rounding to binary64 *)

Definition pow2 (k : Z) : Q := Qpower 2 k.
Definition pow10 (k : Z) : Q := Qpower 10 k.

(** [floor (log2 a)] for a positive rational [a]. *)
Definition ilog2 (a : Q) : Z :=
  let e0 := (Z.log2 (Qnum a) - Z.log2 (Zpos (Qden a)))%Z in
  if Qle_bool (pow2 e0) a then e0 else (e0 - 1)%Z.

(** Round to the nearest integer, ties to even. *)
Definition round_half_even (x : Q) : Z :=
  let f := Qfloor x in
  match Qcompare (x - inject_Z f) (1 # 2) with
  | Lt => f
  | Gt => (f + 1)%Z
  | Eq => if Z.even f then f else (f + 1)%Z
  end.

(** The double nearest to the real [q] (round-to-nearest, ties-to-even,
    gradual underflow, overflow to infinity). *)
Definition round64 (q : Q) : number :=
  if (Qnum q =? 0)%Z then Fin 0
  else
    let a := Qabs q in
    let ulp := Z.max (ilog2 a - 52) (-1074) in
    let m := round_half_even (a / pow2 ulp) in
    let r := inject_Z m * pow2 ulp in
    if Qle_bool (pow2 1024) r
    then (if (Qnum q <? 0)%Z then NegInf else PosInf)
    else Fin (Qred (if (Qnum q <? 0)%Z then - r else r)).

Definition is_double (q : Q) : bool :=
  match round64 q with
  | Fin r => Qeq_bool r q
  | _ => false
  end.

Definition is_neg (x : number) : bool :=
  match x with
  | NegInf => true
  | Fin q => (Qnum q <? 0)%Z
  | _ => false
  end.

(** The [*] operator on numbers. *)
Definition fmul (x y : number) : number :=
  match x, y with
  | NaN, _ | _, NaN => NaN
  | Fin a, Fin b => round64 (a * b)
  | Fin a, _ =>
      if (Qnum a =? 0)%Z then NaN
      else if xorb (is_neg x) (is_neg y) then NegInf else PosInf
  | _, Fin b =>
      if (Qnum b =? 0)%Z then NaN
      else if xorb (is_neg x) (is_neg y) then NegInf else PosInf
  | _, _ => if xorb (is_neg x) (is_neg y) then NegInf else PosInf
  end.

(** The [+] operator on numbers. *)
Definition fadd (x y : number) : number :=
  match x, y with
  | NaN, _ | _, NaN => NaN
  | Fin a, Fin b => round64 (a + b)
  | PosInf, NegInf | NegInf, PosInf => NaN
  | PosInf, _ | _, PosInf => PosInf
  | NegInf, _ | _, NegInf => NegInf
  end.

(** [Math.round]: the nearest integer, ties towards plus infinity. *)
Definition Math_round (x : number) : number :=
  match x with
  | Fin q => Fin (inject_Z (Qfloor (q + (1 # 2))))
  | _ => x
  end.

(** *** Number::toString (radix 10)

    The digits are the shortest decimal that reads back as the same
    double: [k] digits [s] and a decimal exponent [n] with
    [10^(k-1) <= s < 10^k] and [round64 (s * 10^(n-k)) = x], [k] least,
    and [s] nearest to [x] among the candidates of that length. *)

(** The [n] with [10^(n-1) <= a < 10^n], for a positive rational [a]. *)
Fixpoint adjust10 (fuel : nat) (a : Q) (n : Z) : Z :=
  match fuel with
  | O => n
  | S f =>
      if negb (Qle_bool (pow10 (n - 1)) a) then adjust10 f a (n - 1)
      else if Qle_bool (pow10 n) a then adjust10 f a (n + 1)
      else n
  end.

Definition iexp10 (a : Q) : Z :=
  adjust10 4 a (ilog2 a * 30103 / 100000 + 1).

Definition reads_back (x : Q) (s : Z) (scale : Q) : bool :=
  match round64 (inject_Z s * scale) with
  | Fin r => Qeq_bool r x
  | _ => false
  end.

(** The candidate of [k] digits for [x], if one reads back. *)
Definition candidate (x : Q) (n0 k : Z) : option Z :=
  let scale := pow10 (n0 - k) in
  let y := x / scale in
  let lo := Qfloor y in
  let hi := (lo + 1)%Z in
  match reads_back x lo scale, reads_back x hi scale with
  | true, true =>
      match Qcompare (y - inject_Z lo) (inject_Z hi - y) with
      | Lt => Some lo
      | Gt => Some hi
      | Eq => Some (if Z.even lo then lo else hi)
      end
  | true, false => Some lo
  | false, true => Some hi
  | false, false => None
  end.

(** The least [k], from [k] on, with a candidate, and that candidate.
    Seventeen digits are enough for every double; the fuel's end serves
    the rationals that are no doubles. *)
Fixpoint shortest (fuel : nat) (x : Q) (n0 k : Z) : Z * Z :=
  match fuel with
  | O => (k, Qfloor (x / pow10 (n0 - k)))
  | S f =>
      match candidate x n0 k with
      | Some s => (k, s)
      | None => shortest f x n0 (k + 1)
      end
  end.

Definition zeros (k : Z) : string := String_repeat "0" (Z.to_nat k).

Definition toString_pos (x : Q) : string :=
  let n0 := iexp10 x in
  let '(k, s0) := shortest 17 x n0 1 in
  (* a candidate that rounded up to [10^k] is the digit string 10..0 *)
  let '(n, s) := if (s0 =? 10 ^ k)%Z then ((n0 + 1)%Z, (10 ^ (k - 1))%Z)
                 else (n0, s0) in
  let ds := decimal s in
  if ((k <=? n) && (n <=? 21))%Z then ds ++ zeros (n - k)
  else if ((0 <? n) && (n <=? 21))%Z then
    substring 0 (Z.to_nat n) ds ++ "." ++
    substring (Z.to_nat n) (Z.to_nat (k - n)) ds
  else if ((-6 <? n) && (n <=? 0))%Z then "0." ++ zeros (- n) ++ ds
  else
    let e := (n - 1)%Z in
    let ex := (if (e <? 0)%Z then "e-" else "e+") ++ decimal (Z.abs e) in
    if (k =? 1)%Z then ds ++ ex
    else substring 0 1 ds ++ "." ++ substring 1 (Z.to_nat (k - 1)) ds ++ ex.

(** What a template literal prints for a number. *)
Definition Number_toString (x : number) : string :=
  match x with
  | NaN => "NaN"
  | PosInf => "Infinity"
  | NegInf => "-Infinity"
  | Fin q =>
      if (Qnum q =? 0)%Z then "0"
      else if (Qnum q <? 0)%Z then "-" ++ toString_pos (Qabs q)
      else toString_pos q
  end.

(** *** Number.prototype.toFixed

    [n] is the integer nearest to [x * 10^f], the larger one on a tie;
    its digits are left-padded with zeros to [f + 1] places and the point
    goes before the last [f]. *)
Definition toFixed_digits (a : Q) (f : nat) : string :=
  let n := Qfloor (a * pow10 (Z.of_nat f) + (1 # 2)) in
  let m := decimal n in
  if (f =? 0)%nat then m
  else
    let k := String.length m in
    let m' := if (k <=? f)%nat then String_repeat "0" (f + 1 - k) ++ m else m in
    let k' := String.length m' in
    substring 0 (k' - f) m' ++ "." ++ substring (k' - f) f m'.

Definition toFixed (x : number) (fractionDigits : nat) : string :=
  match x with
  | Fin q =>
      let a := Qabs q in
      let s := if (Qnum q <? 0)%Z then "-" else EmptyString in
      if Qle_bool (pow10 21) a then Number_toString x
      else s ++ toFixed_digits a fractionDigits
  | _ => Number_toString x
  end.

(** The double written [d] in a program text. *)
Definition lit (d : Q) : number := round64 d.

(** ** Utility functions of [code.ts] *)

(** [replace(/\.00$/, ...)] with the empty replacement: without the [m]
    flag [$] is the end of the input, so the one possible match is a final
    [.00]. *)
Fixpoint strip_dot00 (s : string) : string :=
  match s with
  | EmptyString => EmptyString
  | String c r => if String.eqb s ".00" then EmptyString
                  else String c (strip_dot00 r)
  end.

Definition sliceNum (n : number) : string :=
  strip_dot00 (toFixed n 2).

Definition nearestOpacity (nodeOpacity : number) : number :=
  Math_round (fmul nodeOpacity (num 100)).

Record RGB : Type := mkRGB { r : number; g : number; b : number }.

(** The second parameter defaults to 1 when the argument is [undefined]. *)
Definition rgbaFromRGB (color : RGB) (opacity : option number) : string :=
  let opacity := match opacity with Some o => o | None => num 1 end in
  "rgba(" ++ Number_toString (Math_round (fmul (r color) (num 255))) ++ ", "
          ++ Number_toString (Math_round (fmul (g color) (num 255))) ++ ", "
          ++ Number_toString (Math_round (fmul (b color) (num 255))) ++ ", "
          ++ Number_toString opacity ++ ")".

(** Line terminators ([^] and [$] under the [m] flag) and white space
    ([\s]) among the code units below 256. *)
Definition is_line_terminator (c : ascii) : bool :=
  let n := nat_of_ascii c in ((n =? 10) || (n =? 13))%nat.

Definition is_whitespace (c : ascii) : bool :=
  let n := nat_of_ascii c in
  ((9 <=? n) && (n <=? 13) || (n =? 32) || (n =? 160))%nat.

(** The lookahead body [\s*$] under the [m] flag, tried at the head of
    [s]: some run of white space from here stops at the end of the input
    or just before a line terminator. *)
Fixpoint blank_ahead (s : string) : bool :=
  match s with
  | EmptyString => true
  | String c rest =>
      is_line_terminator c || (is_whitespace c && blank_ahead rest)
  end.

(** [str.replace(/^(?!\s*$)/gm, pad)]: [pad] goes in at every position
    that starts a line and from which [blank_ahead] fails.  [bol] says
    whether the current position starts a line. *)
Fixpoint indent_from (bol : bool) (pad : string) (s : string) : string :=
  match s with
  | EmptyString => EmptyString
  | String c rest =>
      (if bol && negb (blank_ahead s) then pad else EmptyString)
      ++ String c (indent_from (is_line_terminator c) pad rest)
  end.

(** [indentLevel] is the repeat count, a natural number; every call in
    the program leaves it at its default, 2. *)
Definition indentString (str : string) (indentLevel : nat) : string :=
  indent_from true (String_repeat " " indentLevel) str.

(** ** The node tree handed over by the host *)

(** A property that can hold the [figma.mixed] sentinel. *)
Inductive mixed (A : Type) : Type :=
| Mixed
| Value (a : A).
Arguments Mixed {A}.
Arguments Value {A} a.

Record Paint : Type := mkPaint {
  paint_type : string;            (* [type]; ["SOLID"] carries [color] *)
  color : RGB;
  paint_opacity : option number   (* [opacity], may be undefined *)
}.

Record Vector : Type := mkVector { vector_x : number; vector_y : number }.

Record Effect : Type := mkEffect {
  effect_type : string;
  effect_visible : bool;
  offset : Vector;
  radius : number;
  effect_color : RGB;
  effect_opacity : option number
}.

Record FontName : Type := mkFontName { family : string; style : string }.

(** The value of [lineHeight] or [letterSpacing]: the sentinel, an object
    with a [unit] and possibly a [value], or a bare number. *)
Inductive TextMetric : Type :=
| MetricMixed
| MetricObject (value : option number) (unit : string)
| MetricNumber (n : number).

Record NodeProps : Type := mkProps {
  type : string;
  name : option string;
  visible : bool;
  x : number;
  y : number;
  width : number;
  height : number;
  opacity : option number;
  fills : option (mixed (list Paint));
  strokes : option (mixed (list Paint));
  strokeWeight : option (mixed number);
  cornerRadius : option (mixed number);
  effects : option (list Effect);
  paddingLeft : option number;
  paddingTop : option number;
  paddingRight : option number;
  paddingBottom : option number;
  layoutMode : string;
  primaryAxisAlignItems : string;
  counterAxisAlignItems : string;
  characters : string;
  fontName : mixed FontName;
  fontSize : mixed number;
  lineHeight : TextMetric;
  letterSpacing : TextMetric;
  textAlignHorizontal : option string
}.

(** A node: its own properties and, for the container kinds, its ordered
    children (empty for the others, which never read them). *)
#[warnings="-register-all"]
Inductive SceneNode : Type :=
| Node (props : NodeProps) (children : list SceneNode).

Definition props (node : SceneNode) : NodeProps :=
  match node with Node p _ => p end.

Definition children (node : SceneNode) : list SceneNode :=
  match node with Node _ cs => cs end.

Coercion props : SceneNode >-> NodeProps.

(** ** Helper functions for styles *)

Definition getBorderWidth (node : SceneNode) : string :=
  match strokeWeight node with
  | Some (Value w) => sliceNum w ++ "px"
  | _ => "0px"
  end.

Definition getBorderColor (node : SceneNode) : string :=
  match strokes node with
  | Some (Value (p0 :: _)) =>
      if String.eqb (paint_type p0) "SOLID"
      then rgbaFromRGB (color p0) (Some (or_default (paint_opacity p0) (num 1)))
      else "transparent"
  | _ => "transparent"
  end.

Definition getBorderRadius (node : SceneNode) : string :=
  match cornerRadius node with
  | Some (Value rad) => sliceNum rad ++ "px"
  | _ => "0px"
  end.

Definition getShadow (node : SceneNode) : list string :=
  match effects node with
  | Some es =>
      map (fun effect =>
             sliceNum (vector_x (offset effect)) ++ "px " ++
             sliceNum (vector_y (offset effect)) ++ "px " ++
             sliceNum (radius effect) ++ "px " ++
             rgbaFromRGB (effect_color effect) (effect_opacity effect))
          (filter (fun effect =>
                     String.eqb (effect_type effect) "DROP_SHADOW"
                     && effect_visible effect) es)
  | None => []
  end.

Definition getPadding (node : SceneNode) : string :=
  match paddingLeft node with
  | Some _ =>
      sliceNum (or_default (paddingTop node) (num 0)) ++ "px " ++
      sliceNum (or_default (paddingRight node) (num 0)) ++ "px " ++
      sliceNum (or_default (paddingBottom node) (num 0)) ++ "px " ++
      sliceNum (or_default (paddingLeft node) (num 0)) ++ "px"
  | None => "0px"
  end.

Definition getBackgroundColor (node : SceneNode) : string :=
  match fills node with
  | Some (Value (p0 :: _)) =>
      if String.eqb (paint_type p0) "SOLID"
      then rgbaFromRGB (color p0) (Some (or_default (paint_opacity p0) (num 1)))
      else "transparent"
  | _ => "transparent"
  end.

(** ** Main functions *)

(** The kinds listed in both [switch] statements. *)
Definition supported_kinds : list string :=
  ["RECTANGLE"; "ELLIPSE"; "LINE"; "TEXT"; "VECTOR"; "GROUP"; "FRAME";
   "INSTANCE"; "COMPONENT"; "COMPONENT_SET"; "SECTION"].

Definition is_kind (node : SceneNode) (k : string) : bool :=
  String.eqb (type node) k.

(** The [switch] of [convertIntoNodes]: the node itself, or [null]. *)
Definition convert_case (node : SceneNode) : option SceneNode :=
  if is_kind node "RECTANGLE" || is_kind node "ELLIPSE" || is_kind node "LINE"
     || is_kind node "TEXT" || is_kind node "VECTOR" || is_kind node "GROUP"
     || is_kind node "FRAME" || is_kind node "INSTANCE"
     || is_kind node "COMPONENT" || is_kind node "COMPONENT_SET"
     || is_kind node "SECTION"
  then Some node else None.

(** [notEmpty] keeps what is neither [null] nor [undefined]. *)
Definition notEmpty {A : Type} (value : option A) : bool :=
  match value with Some _ => true | None => false end.

(** [array.filter(notEmpty)], with the narrowed element type. *)
Fixpoint filter_notEmpty {A : Type} (l : list (option A)) : list A :=
  match l with
  | [] => []
  | v :: rest =>
      match v with
      | Some a => a :: filter_notEmpty rest
      | None => filter_notEmpty rest
      end
  end.

(** The second parameter of the source, [parent], is never read. *)
Definition convertIntoNodes (sceneNode : list SceneNode) : list SceneNode :=
  filter_notEmpty (map convert_case sceneNode).

(** ** Helper functions to generate detailed prompts *)

(** The [componentName] constant that opens every generator. *)
Definition componentName (node : SceneNode) : string :=
  match name node with
  | Some nm => if String.eqb nm EmptyString then EmptyString
               else " (Component Name: " ++ nm ++ ")"
  | None => EmptyString
  end.

Definition generateContainerPrompt (node : SceneNode) : string :=
  "- A " ++ toLowerCase (type node) ++ componentName node ++
  " with dimensions " ++ sliceNum (width node) ++ "x" ++ sliceNum (height node) ++
  "px, positioned at (" ++ sliceNum (x node) ++ "," ++ sliceNum (y node) ++
  ")px, with background color " ++ getBackgroundColor node ++
  ", border width " ++ getBorderWidth node ++ " color " ++ getBorderColor node ++
  ", opacity at " ++
  Number_toString (nearestOpacity (or_default (opacity node) (num 1))) ++
  "%, border radius " ++ getBorderRadius node ++
  ", and shadow " ++ join ", " (getShadow node) ++ ".".

(** The two-character replacement text: a backslash, then the letter n. *)
Definition backslash_n : string := String (ascii_of_nat 92) "n".

(** [replace(/\n/g, ...)] with [backslash_n] as the replacement. *)
Fixpoint escape_newlines (s : string) : string :=
  match s with
  | EmptyString => EmptyString
  | String c rest =>
      if Ascii.eqb c LF then backslash_n ++ escape_newlines rest
      else String c (escape_newlines rest)
  end.

(** A template literal's rendering of a possibly undefined number. *)
Definition show_value (v : option number) : string :=
  match v with
  | Some n => Number_toString n
  | None => "undefined"
  end.

Definition generateTextPrompt (node : SceneNode) : string :=
  let textContent := escape_newlines (characters node) in
  let fontName :=
    match fontName node with
    | Value f => f
    | Mixed => mkFontName "Unknown" "Unknown"
    end in
  let fontSize :=
    match fontSize node with Value sz => sz | Mixed => num 0 end in
  let lineHeight :=
    match lineHeight node with
    | MetricObject v u =>
        if String.eqb u "AUTO" then "auto" else show_value v ++ u
    | MetricNumber n => sliceNum n
    | MetricMixed => "auto"
    end in
  let letterSpacing :=
    match letterSpacing node with
    | MetricObject v u => show_value v ++ u
    | MetricNumber n => sliceNum n
    | MetricMixed => "normal"
    end in
  let align :=
    match textAlignHorizontal node with
    | Some a => if String.eqb a EmptyString then "LEFT" else a
    | None => "LEFT"
    end in
  "- Text node" ++ componentName node ++ " with content: " ++
  chr DQUOTE ++ textContent ++ chr DQUOTE ++
  ", font size " ++ sliceNum fontSize ++
  "px, font family " ++ family fontName ++
  ", font style " ++ style fontName ++
  ", alignment " ++ align ++
  ", color " ++ getBackgroundColor node ++
  ", opacity at " ++
  Number_toString (nearestOpacity (or_default (opacity node) (num 1))) ++
  "%, line height " ++ lineHeight ++
  ", and letter spacing " ++ letterSpacing ++ ".".

Definition generateLinePrompt (node : SceneNode) : string :=
  let strokeWeight :=
    match strokeWeight node with Some (Value w) => w | _ => num 0 end in
  let opacity :=
    match opacity node with Some o => o | None => num 1 end in
  "- A line" ++ componentName node ++
  " from (" ++ sliceNum (x node) ++ "," ++ sliceNum (y node) ++
  ")px to (" ++ sliceNum (fadd (x node) (width node)) ++ "," ++
  sliceNum (fadd (y node) (height node)) ++
  ")px, with stroke width " ++ sliceNum strokeWeight ++
  "px, color " ++ getBorderColor node ++
  ", and opacity at " ++ Number_toString (nearestOpacity opacity) ++ "%.".

Definition generateVectorPrompt (node : SceneNode) : string :=
  "- A vector node" ++ componentName node ++
  " with dimensions " ++ sliceNum (width node) ++ "x" ++ sliceNum (height node) ++
  "px, positioned at (" ++ sliceNum (x node) ++ "," ++ sliceNum (y node) ++ ")px.".

(** [node.children.length] in a template literal. *)
Definition show_length {A : Type} (l : list A) : string :=
  decimal (Z.of_nat (List.length l)).

Section Containers.

(** The recursive call made for one child, [WidgetGenerator([child])];
    the knot is tied by [renderNode] below. *)
Variable WidgetGenerator1 : SceneNode -> string.

Definition childrenPrompts (node : SceneNode) : string :=
  join nl (map WidgetGenerator1 (children node)).

Definition generateGroupPrompt (node : SceneNode) : string :=
  "- A group" ++ componentName node ++
  " with " ++ show_length (children node) ++
  " children, dimensions " ++ sliceNum (width node) ++ "x" ++
  sliceNum (height node) ++
  "px, positioned at (" ++ sliceNum (x node) ++ "," ++ sliceNum (y node) ++
  ")px, with properties:" ++ nl ++ indentString (childrenPrompts node) 2.

Definition layoutInfo (node : SceneNode) : string :=
  if negb (String.eqb (layoutMode node) "NONE")
  then "Layout mode: " ++ layoutMode node ++
       ", Alignment: " ++ primaryAxisAlignItems node ++ "/" ++
       counterAxisAlignItems node ++
       ", Padding: " ++ getPadding node
  else "Layout mode: NONE".

Definition generateFramePrompt (node : SceneNode) : string :=
  "- A " ++ toLowerCase (type node) ++ " frame" ++ componentName node ++
  " with " ++ show_length (children node) ++
  " children, dimensions " ++ sliceNum (width node) ++ "x" ++
  sliceNum (height node) ++
  "px, positioned at (" ++ sliceNum (x node) ++ "," ++ sliceNum (y node) ++
  ")px, " ++ layoutInfo node ++ ":" ++ nl ++
  indentString (childrenPrompts node) 2.

Definition generateSectionPrompt (node : SceneNode) : string :=
  "- A section node" ++ componentName node ++
  " with " ++ show_length (children node) ++
  " children, dimensions " ++ sliceNum (width node) ++ "x" ++
  sliceNum (height node) ++
  "px, positioned at (" ++ sliceNum (x node) ++ "," ++ sliceNum (y node) ++
  ")px:" ++ nl ++ indentString (childrenPrompts node) 2.

(** The [switch] inside [WidgetGenerator]'s [map] callback. *)
Definition render_case (node : SceneNode) : string :=
  if is_kind node "RECTANGLE" || is_kind node "ELLIPSE"
  then generateContainerPrompt node
  else if is_kind node "GROUP" then generateGroupPrompt node
  else if is_kind node "FRAME" || is_kind node "COMPONENT"
          || is_kind node "INSTANCE" || is_kind node "COMPONENT_SET"
  then generateFramePrompt node
  else if is_kind node "TEXT" then generateTextPrompt node
  else if is_kind node "LINE" then generateLinePrompt node
  else if is_kind node "VECTOR" then generateVectorPrompt node
  else if is_kind node "SECTION" then generateSectionPrompt node
  else "Unknown node type: " ++ type node.

End Containers.

(** The [map] callback of [WidgetGenerator] with its recursion closed: a
    child is rendered by the singleton call, which filters it by
    visibility and joins the single result (see [WidgetGenerator_singleton]
    for the equation with [WidgetGenerator [child]]). *)
Fixpoint renderNode (node : SceneNode) : string :=
  render_case
    (fun child => if visible child then renderNode child else EmptyString)
    node.

Definition WidgetGenerator (sceneNode : list SceneNode) : string :=
  join nl (map renderNode (filter (fun node : SceneNode => visible node) sceneNode)).

Definition Main (sceneNode : list SceneNode) : string :=
  WidgetGenerator sceneNode.

(** ** Entry point: the handler of messages from the UI *)

Record Message : Type := mkMessage {
  msg_type : string;
  framework : string;
  database : string;
  description : string
}.

(** What [figma.ui.postMessage] is given. *)
Record Posted : Type := mkPosted { posted_type : string; prompt : string }.

Definition overview (msg : Message) : string :=
  "Create a reusable and performant " ++ framework msg ++
  " Component with the following specifications, add it to the existing project or create a new " ++
  framework msg ++ " project:" ++ nl ++ nl ++
  "### Overview:" ++ nl ++
  "- **Description**: " ++ description msg ++ nl ++
  "- **Type**: A " ++ framework msg ++
  " that includes all underlying components and instances." ++ nl ++
  "- **Framework**: " ++ framework msg ++
  " (use appropriate syntax for type safety) Typescript if the framework supports it" ++ nl ++
  "- **Accessibility**: Ensure all components are accessible by using appropriate ARIA attributes." ++ nl ++
  "- **Performance**: Optimize the code for performance, following the selected framework's best practices." ++ nl ++
  "- **Reusability**: All components and styles must be reusable." ++ nl ++
  "- **Global CSS**: All CSS must be stored in a single global CSS file or theme file." ++ nl ++
  (if negb (String.eqb (database msg) EmptyString)
      && negb (String.eqb (database msg) "null")
   then "- **Database**: Privide the  " ++ database msg ++
        " schema to create the database table. for any input fields." ++ nl ++ nl
   else EmptyString).

Definition layout (rendered : string) : string :=
  "### Layout:" ++ nl ++
  "- This layout is created based on the selected nodes from Figma." ++ nl ++
  rendered.

Definition implementation_and_usage (msg : Message) : string :=
  "### Implementation:" ++ nl ++
  "- Create all underlying components with their different variations." ++ nl ++
  "- Use " ++ framework msg ++
  " hooks like `useState` for managing internal state if necessary, particularly for managing hover effects if not using CSS hover." ++ nl ++
  "- Ensure the component uses flexbox for aligning icon and text horizontally (if applicable)." ++ nl ++
  "- Use `role` attributes where necessary to define the semantic role of the elements." ++ nl ++
  "- Use `aria-label` to provide descriptive labels for interactive elements." ++ nl ++
  "- Use `aria-expanded` for elements that expand or collapse content." ++ nl ++
  "- Follow the selected framework's coding best practices and standards." ++ nl ++
  "- All styles must be defined in a global CSS file or theme file and applied using CSS classes." ++ nl ++
  "- Swap the text icon with a randomly selected icon." ++ nl ++
  "- Add validation for the input fields." ++ nl ++ nl ++
  "### Usage:" ++ nl ++
  "- Include the component in your application." ++ nl ++
  "- Use the component as needed in your application." ++ nl ++
  "- Ensure the component is responsive and works on all screen sizes." ++ nl ++
  "- Test the component on different browsers and devices to ensure compatibility." ++ nl ++
  "- Ensure the component is accessible and meets all WCAG standards." ++ nl ++
  "- Ensure the component is performant and does not impact the application's performance." ++ nl ++
  "- Ensure the component is reusable and can be used in different parts of the application." ++ nl ++ nl.

(** [figma.ui.onmessage]: [selection] is [figma.currentPage.selection]
    ([None] when it is absent); the result lists the messages posted to
    the UI, in order. *)
Definition onmessage (selection : option (list SceneNode)) (msg : Message)
  : list Posted :=
  if String.eqb (msg_type msg) "generate" then
    match selection with
    | None | Some [] => [mkPosted "prompt" "No nodes selected."]
    | Some currentpage =>
        let convertedSelection := convertIntoNodes currentpage in
        let output :=
          overview msg ++ layout (Main convertedSelection) ++
          implementation_and_usage msg in
        [mkPosted "prompt" output]
    end
  else [].

(** * Vocabulary of the properties

    Notions the statements below are written with, and the sample nodes
    their instances are computed on. *)

(** ** Indentation *)

(** A line: no line terminator inside. *)
Definition is_line (l : string) : bool :=
  forallb (fun c => negb (is_line_terminator c)) (list_ascii_of_string l).

(** A blank line: white space only. *)
Definition is_blank (l : string) : bool :=
  forallb is_whitespace (list_ascii_of_string l).

(** What the specification asks for one line. *)
Definition indent_line (indentLevel : nat) (l : string) : string :=
  if is_blank l then l else String_repeat " " indentLevel ++ l.

(** A text cut into its lines: each line of [segs] with the terminator that
    ends it, then the last, unterminated line. *)
Fixpoint unlines (segs : list (string * ascii)) (last : string) : string :=
  match segs with
  | [] => last
  | (l, t) :: rest => l ++ String t (unlines rest last)
  end.

Definition well_cut (segs : list (string * ascii)) (last : string) : Prop :=
  Forall (fun seg => is_line (fst seg) = true
                     /\ is_line_terminator (snd seg) = true) segs
  /\ is_line last = true.


(** ** Number formatting *)

(** The integer nearest to [|q| * 100], the larger one on a tie: the value
    of [q] in hundredths after rounding to two decimal places. *)
Definition hundredths (q : Q) : Z := Qfloor (Qabs q * 100 + (1 # 2)).

(** ** Colour extractors *)

(** Sample nodes: [bare ty] is a visible node of kind [ty] at the origin
    with no optional property set. *)
Definition bare (ty : string) : NodeProps :=
  mkProps ty None true (num 0) (num 0) (num 0) (num 0) None None None None
          None None None None None None "NONE" "MIN" "MIN" EmptyString
          Mixed Mixed MetricMixed MetricMixed None.

Definition with_visible (v : bool) (p : NodeProps) : NodeProps :=
  mkProps (type p) (name p) v (x p) (y p) (width p) (height p) (opacity p)
          (fills p) (strokes p) (strokeWeight p) (cornerRadius p) (effects p)
          (paddingLeft p) (paddingTop p) (paddingRight p) (paddingBottom p)
          (layoutMode p) (primaryAxisAlignItems p) (counterAxisAlignItems p)
          (characters p) (fontName p) (fontSize p) (lineHeight p)
          (letterSpacing p) (textAlignHorizontal p).

Definition with_opacity (o : option number) (p : NodeProps) : NodeProps :=
  mkProps (type p) (name p) (visible p) (x p) (y p) (width p) (height p) o
          (fills p) (strokes p) (strokeWeight p) (cornerRadius p) (effects p)
          (paddingLeft p) (paddingTop p) (paddingRight p) (paddingBottom p)
          (layoutMode p) (primaryAxisAlignItems p) (counterAxisAlignItems p)
          (characters p) (fontName p) (fontSize p) (lineHeight p)
          (letterSpacing p) (textAlignHorizontal p).

Definition with_fills (f : option (mixed (list Paint))) (p : NodeProps)
  : NodeProps :=
  mkProps (type p) (name p) (visible p) (x p) (y p) (width p) (height p)
          (opacity p) f (strokes p) (strokeWeight p) (cornerRadius p)
          (effects p) (paddingLeft p) (paddingTop p) (paddingRight p)
          (paddingBottom p) (layoutMode p) (primaryAxisAlignItems p)
          (counterAxisAlignItems p) (characters p) (fontName p) (fontSize p)
          (lineHeight p) (letterSpacing p) (textAlignHorizontal p).

Definition with_strokes (s : option (mixed (list Paint))) (p : NodeProps)
  : NodeProps :=
  mkProps (type p) (name p) (visible p) (x p) (y p) (width p) (height p)
          (opacity p) (fills p) s (strokeWeight p) (cornerRadius p)
          (effects p) (paddingLeft p) (paddingTop p) (paddingRight p)
          (paddingBottom p) (layoutMode p) (primaryAxisAlignItems p)
          (counterAxisAlignItems p) (characters p) (fontName p) (fontSize p)
          (lineHeight p) (letterSpacing p) (textAlignHorizontal p).

Definition red : RGB := mkRGB (num 1) (num 0) (num 0).
Definition solid_red : Paint := mkPaint "SOLID" red None.
Definition gradient : Paint := mkPaint "GRADIENT_LINEAR" red None.

(** The opacity a solid paint is rendered with: its own when that is
    given and truthy, otherwise 1. *)
Definition rendered_opacity (p : Paint) : number :=
  match paint_opacity p with
  | Some o => if truthy o then o else num 1
  | None => num 1
  end.

(** The colour rule as the specification words it: the first solid entry
    anywhere in the list, with its opacity or 1 when that is not given. *)
Definition first_solid_color (paints : option (mixed (list Paint))) : string :=
  match paints with
  | Some (Value l) =>
      match find (fun p => String.eqb (paint_type p) "SOLID") l with
      | Some p =>
          rgbaFromRGB (color p)
            (Some (match paint_opacity p with Some o => o | None => num 1 end))
      | None => "transparent"
      end
  | _ => "transparent"
  end.

(** ** The recursion over the tree *)

Section SceneNode_induction.

Variable P : SceneNode -> Prop.
Hypothesis step : forall p cs, Forall P cs -> P (Node p cs).


End SceneNode_induction.

(** The call made for one child, as the source writes it. *)
Definition renderChild (child : SceneNode) : string := WidgetGenerator [child].

(** The text of the children of a container, indented. *)
Definition children_block (node : SceneNode) : string :=
  indentString (childrenPrompts renderChild node) 2.

Definition is_container (node : SceneNode) : bool :=
  is_kind node "GROUP" || is_kind node "SECTION" || is_kind node "FRAME"
  || is_kind node "COMPONENT" || is_kind node "COMPONENT_SET"
  || is_kind node "INSTANCE".

Definition is_frame_like (node : SceneNode) : bool :=
  is_kind node "FRAME" || is_kind node "COMPONENT"
  || is_kind node "COMPONENT_SET" || is_kind node "INSTANCE".

(** ** Invisible nodes *)

Definition shown_rect : SceneNode := Node (bare "RECTANGLE") [].
Definition hidden_rect : SceneNode :=
  Node (with_visible false (bare "RECTANGLE")) [].






(** ** Containers *)

Definition group_one_hidden : SceneNode := Node (bare "GROUP") [hidden_rect].
Definition group_two_hidden : SceneNode :=
  Node (bare "GROUP") [hidden_rect; hidden_rect].

(** ** Unsupported kinds *)

Definition slice_node : SceneNode := Node (bare "SLICE") [].

(** ** The message handler *)

Definition sample_msg : Message := mkMessage "generate" "React" "null" "A card".

(** ** Frames *)

(** The line of a frame-like node up to its layout information. *)
Definition frame_head (node : SceneNode) : string :=
  "- A " ++ toLowerCase (type node) ++ " frame" ++ componentName node ++
  " with " ++ show_length (children node) ++
  " children, dimensions " ++ sliceNum (width node) ++ "x" ++
  sliceNum (height node) ++
  "px, positioned at (" ++ sliceNum (x node) ++ "," ++ sliceNum (y node) ++
  ")px, ".

Definition with_layout (mode : string) (p : NodeProps) : NodeProps :=
  mkProps (type p) (name p) (visible p) (x p) (y p) (width p) (height p)
          (opacity p) (fills p) (strokes p) (strokeWeight p) (cornerRadius p)
          (effects p) (Some (num 4)) (Some (num 8)) None (paddingBottom p)
          mode "CENTER" (counterAxisAlignItems p) (characters p) (fontName p)
          (fontSize p) (lineHeight p) (letterSpacing p) (textAlignHorizontal p).

(** ** Text nodes *)

Definition has_newline (s : string) : bool :=
  existsb (Ascii.eqb LF) (list_ascii_of_string s).

Definition with_characters (s : string) (p : NodeProps) : NodeProps :=
  mkProps (type p) (name p) (visible p) (x p) (y p) (width p) (height p)
          (opacity p) (fills p) (strokes p) (strokeWeight p) (cornerRadius p)
          (effects p) (paddingLeft p) (paddingTop p) (paddingRight p)
          (paddingBottom p) (layoutMode p) (primaryAxisAlignItems p)
          (counterAxisAlignItems p) s (fontName p) (fontSize p)
          (lineHeight p) (letterSpacing p) (textAlignHorizontal p).

Definition text_a_b : SceneNode :=
  Node (with_characters ("a" ++ nl ++ "b") (bare "TEXT")) [].

(** ** Zero opacity *)

Definition rect_zero_opacity : SceneNode :=
  Node (with_opacity (Some (Fin 0))
          (with_fills (Some (Value [mkPaint "SOLID" red (Some (Fin 0))]))
                      (bare "RECTANGLE")))
       [].

(** ** Further vocabulary *)

(** Membership of a node's kind in [supported_kinds], as a boolean. *)
Definition is_supported (node : SceneNode) : bool :=
  existsb (String.eqb (type node)) supported_kinds.

(** The node with its visibility flag set to [v] and nothing else
    changed. *)
Definition set_visible (v : bool) (node : SceneNode) : SceneNode :=
  Node (with_visible v node) (children node).

Definition some_visible (l : list SceneNode) : bool :=
  existsb (fun node : SceneNode => visible node) l.

Definition with_name (nm : option string) (p : NodeProps) : NodeProps :=
  mkProps (type p) nm (visible p) (x p) (y p) (width p) (height p)
          (opacity p) (fills p) (strokes p) (strokeWeight p) (cornerRadius p)
          (effects p) (paddingLeft p) (paddingTop p) (paddingRight p)
          (paddingBottom p) (layoutMode p) (primaryAxisAlignItems p)
          (counterAxisAlignItems p) (characters p) (fontName p) (fontSize p)
          (lineHeight p) (letterSpacing p) (textAlignHorizontal p).

Definition line_zero_opacity : SceneNode :=
  Node (with_opacity (Some (Fin 0)) (bare "LINE")) [].

Definition with_database (db : string) (msg : Message) : Message :=
  mkMessage (msg_type msg) (framework msg) db (description msg).

(** [t] opens with [s]. *)
Definition starts_with (t s : string) : Prop :=
  exists rest, t = s ++ rest.

(** The text ends with a full stop. *)
Definition ends_with_dot (s : string) : Prop :=
  exists pre, s = pre ++ ".".

(** The kinds rendered on one line that ends with a full stop. *)
Definition leaf_kinds : list string :=
  ["RECTANGLE"; "ELLIPSE"; "TEXT"; "LINE"; "VECTOR"].

Definition with_geometry (x' y' w h : number) (p : NodeProps) : NodeProps :=
  mkProps (type p) (name p) (visible p) x' y' w h
          (opacity p) (fills p) (strokes p) (strokeWeight p) (cornerRadius p)
          (effects p) (paddingLeft p) (paddingTop p) (paddingRight p)
          (paddingBottom p) (layoutMode p) (primaryAxisAlignItems p)
          (counterAxisAlignItems p) (characters p) (fontName p) (fontSize p)
          (lineHeight p) (letterSpacing p) (textAlignHorizontal p).

Definition with_effects (es : option (list Effect)) (p : NodeProps) : NodeProps :=
  mkProps (type p) (name p) (visible p) (x p) (y p) (width p) (height p)
          (opacity p) (fills p) (strokes p) (strokeWeight p) (cornerRadius p)
          es (paddingLeft p) (paddingTop p) (paddingRight p)
          (paddingBottom p) (layoutMode p) (primaryAxisAlignItems p)
          (counterAxisAlignItems p) (characters p) (fontName p) (fontSize p)
          (lineHeight p) (letterSpacing p) (textAlignHorizontal p).

Definition with_strokeWeight (w : option (mixed number)) (p : NodeProps)
  : NodeProps :=
  mkProps (type p) (name p) (visible p) (x p) (y p) (width p) (height p)
          (opacity p) (fills p) (strokes p) w (cornerRadius p)
          (effects p) (paddingLeft p) (paddingTop p) (paddingRight p)
          (paddingBottom p) (layoutMode p) (primaryAxisAlignItems p)
          (counterAxisAlignItems p) (characters p) (fontName p) (fontSize p)
          (lineHeight p) (letterSpacing p) (textAlignHorizontal p).

Definition drop_shadow : Effect :=
  mkEffect "DROP_SHADOW" true (mkVector (num 0) (num 4)) (num 8) red None.

Definition hidden_shadow : Effect :=
  mkEffect "DROP_SHADOW" false (mkVector (num 0) (num 4)) (num 8) red None.

Definition layer_blur : Effect :=
  mkEffect "LAYER_BLUR" true (mkVector (num 0) (num 0)) (num 2) red None.

(** The test of [getShadow]'s filter. *)
Definition counts_as_shadow (effect : Effect) : bool :=
  String.eqb (effect_type effect) "DROP_SHADOW" && effect_visible effect.

Definition with_padding (top right bottom left : option number)
    (p : NodeProps) : NodeProps :=
  mkProps (type p) (name p) (visible p) (x p) (y p) (width p) (height p)
          (opacity p) (fills p) (strokes p) (strokeWeight p) (cornerRadius p)
          (effects p) left top right bottom
          (layoutMode p) (primaryAxisAlignItems p)
          (counterAxisAlignItems p) (characters p) (fontName p) (fontSize p)
          (lineHeight p) (letterSpacing p) (textAlignHorizontal p).

(** A side of the padding that is missing or zero. *)
Definition no_padding (side : option number) : Prop :=
  side = None \/ exists q, q == 0 /\ side = Some (Fin q).

(** * Properties *)

(** ** The primitives on sample values *)

Example toString_samples :
  map Number_toString
      [lit (1 # 2); lit (1 # 10); num 255; num 100; lit (-(25 # 2)); num 0;
       lit (1 # 1000000); lit (1 # 10000000); lit (123456789 # 1000);
       lit (pow10 21); lit (pow10 23); lit (3 # 10); lit (2 # 3);
       fmul (lit (285 # 1000)) (num 100); fadd (lit (1 # 10)) (lit (2 # 10));
       lit (pow2 (-1074)); lit (pow2 (-1022)); num (2 ^ 53);
       fmul (lit (pow10 300)) (lit (pow10 10));
       Math_round (lit (-(3 # 10))); Math_round (lit (5 # 2));
       Math_round (lit (-(5 # 2)))]
  = ["0.5"; "0.1"; "255"; "100"; "-12.5"; "0";
     "0.000001"; "1e-7"; "123456.789"; "1e+21"; "1e+23"; "0.3";
     "0.6666666666666666"; "28.499999999999996"; "0.30000000000000004";
     "5e-324"; "2.2250738585072014e-308"; "9007199254740992";
     "Infinity"; "0"; "3"; "-2"].
Proof. vm_compute. reflexivity. Qed.

Example toFixed_samples :
  map (fun x => toFixed x 2)
      [num 12; lit (25 # 2); lit (12345 # 1000); lit (1005 # 1000);
       lit (1 # 1000); lit (-(1 # 1000)); lit (5 # 1000); num 0;
       lit (999999 # 1000); lit (pow10 20); lit (pow10 21); NaN]
  = ["12.00"; "12.50"; "12.35"; "1.00"; "0.00"; "-0.00"; "0.01"; "0.00";
     "1000.00"; "100000000000000000000.00"; "1e+21"; "NaN"].
Proof. vm_compute. reflexivity. Qed.

Example sliceNum_samples :
  map sliceNum [num 12; lit (25 # 2); lit (-(1 # 1000)); num 100; lit (1001 # 10)]
  = ["12"; "12.50"; "-0"; "100"; "100.10"].
Proof. vm_compute. reflexivity. Qed.

Example indentString_samples :
  indentString ("a" ++ nl ++ nl ++ "b") 2 = "  a" ++ nl ++ nl ++ "  b"
  /\ indentString ("a" ++ nl ++ "   " ++ nl ++ "b" ++ nl) 2
     = "  a" ++ nl ++ "   " ++ nl ++ "  b" ++ nl
  /\ indentString EmptyString 2 = EmptyString
  /\ indentString (nl ++ nl) 2 = nl ++ nl.
Proof. vm_compute. repeat split. Qed.

(** ** Strings *)

Lemma append_nil_r (s : string) : s ++ EmptyString = s.
Proof. induction s as [|c s IH]; simpl; [reflexivity | now rewrite IH]. Qed.

Lemma append_assoc (s t u : string) : (s ++ t) ++ u = s ++ t ++ u.
Proof. induction s as [|c s IH]; simpl; [reflexivity | now rewrite IH]. Qed.

Lemma length_append (s t : string) :
  String.length (s ++ t) = (String.length s + String.length t)%nat.
Proof. induction s as [|c s IH]; simpl; [reflexivity | now rewrite IH]. Qed.

Lemma substring_all (s : string) : substring 0 (String.length s) s = s.
Proof. induction s as [|c s IH]; simpl; [reflexivity | now rewrite IH]. Qed.

Lemma substring_prefix (s t : string) :
  substring 0 (String.length s) (s ++ t) = s.
Proof.
  induction s as [|c s IH]; simpl.
  - destruct t; reflexivity.
  - now rewrite IH.
Qed.

Lemma substring_suffix (s t : string) :
  substring (String.length s) (String.length t) (s ++ t) = t.
Proof.
  induction s as [|c s IH]; simpl.
  - apply substring_all.
  - exact IH.
Qed.

Lemma contains_intro (pre s post : string) : contains (pre ++ s ++ post) s.
Proof. now exists pre, post. Qed.

(** Strings told apart by the boolean test are different. *)
Lemma eqb_false_neq (s t : string) : String.eqb s t = false -> s <> t.
Proof. apply String.eqb_neq. Qed.

(** ** Indentation *)

Lemma terminator_is_whitespace (c : ascii) :
  is_line_terminator c = true -> is_whitespace c = true.
Proof.
  unfold is_line_terminator, is_whitespace.
  intros H. apply orb_true_iff in H.
  destruct H as [H|H]; apply Nat.eqb_eq in H; rewrite H; reflexivity.
Qed.

(** The lookahead sees exactly whether the line it starts on is blank. *)
Lemma blank_ahead_line (l rest : string) :
  is_line l = true ->
  (rest = EmptyString
   \/ exists t r, rest = String t r /\ is_line_terminator t = true) ->
  blank_ahead (l ++ rest) = is_blank l.
Proof.
  intros Hl Hrest.
  induction l as [|c l IH]; simpl.
  - destruct Hrest as [->|(t & r' & -> & Ht)]; simpl; [reflexivity|].
    now rewrite Ht.
  - unfold is_line in Hl. simpl in Hl. apply andb_true_iff in Hl.
    destruct Hl as [Hc Hl]. apply negb_true_iff in Hc.
    rewrite Hc. simpl. unfold is_blank. simpl.
    fold (is_blank l). now rewrite (IH Hl).
Qed.

Lemma indent_from_inside (pad l : string) (t : ascii) (rest : string) :
  is_line l = true ->
  indent_from false pad (l ++ String t rest)
  = l ++ String t (indent_from (is_line_terminator t) pad rest).
Proof.
  intros Hl. induction l as [|c l IH]; simpl; [reflexivity|].
  unfold is_line in Hl. simpl in Hl. apply andb_true_iff in Hl.
  destruct Hl as [Hc Hl]. apply negb_true_iff in Hc.
  rewrite Hc. now rewrite (IH Hl).
Qed.

Lemma indent_from_inside_last (pad l : string) :
  is_line l = true -> indent_from false pad l = l.
Proof.
  intros Hl. induction l as [|c l IH]; simpl; [reflexivity|].
  unfold is_line in Hl. simpl in Hl. apply andb_true_iff in Hl.
  destruct Hl as [Hc Hl]. apply negb_true_iff in Hc.
  rewrite Hc. now rewrite (IH Hl).
Qed.

(** One terminated line at the start of a line. *)
Lemma indentString_step (n : nat) (l : string) (t : ascii) (rest : string) :
  is_line l = true -> is_line_terminator t = true ->
  indentString (l ++ String t rest) n
  = indent_line n l ++ String t (indentString rest n).
Proof.
  intros Hl Ht. unfold indentString, indent_line.
  destruct l as [|c l].
  - simpl. rewrite Ht. simpl. reflexivity.
  - assert (Hb : blank_ahead (String c l ++ String t rest)
                 = is_blank (String c l)).
    { apply blank_ahead_line; [exact Hl|]. right. now exists t, rest. }
    change (String c l ++ String t rest) with (String c (l ++ String t rest)) in *.
    cbn [indent_from]. rewrite Hb. cbn [andb].
    unfold is_line in Hl. simpl in Hl. apply andb_true_iff in Hl.
    destruct Hl as [Hc Hl]. apply negb_true_iff in Hc. rewrite Hc.
    rewrite (indent_from_inside _ _ _ _ Hl), Ht.
    destruct (is_blank (String c l)); simpl.
    + reflexivity.
    + now rewrite append_assoc.
Qed.

(** The last, unterminated line. *)
Lemma indentString_last (n : nat) (l : string) :
  is_line l = true -> indentString l n = indent_line n l.
Proof.
  intros Hl. unfold indentString, indent_line.
  destruct l as [|c l]; [reflexivity|].
  assert (Hb : blank_ahead (String c l ++ EmptyString) = is_blank (String c l)).
  { apply blank_ahead_line; [exact Hl | now left]. }
  rewrite append_nil_r in Hb.
  cbn [indent_from]. rewrite Hb. cbn [andb].
  unfold is_line in Hl. simpl in Hl. apply andb_true_iff in Hl.
  destruct Hl as [Hc Hl]. apply negb_true_iff in Hc. rewrite Hc.
  rewrite (indent_from_inside_last _ _ Hl).
  destruct (is_blank (String c l)); simpl; reflexivity.
Qed.

(** Every string is cut into lines in this way. *)
Lemma every_string_well_cut (s : string) :
  exists segs last, s = unlines segs last /\ well_cut segs last.
Proof.
  induction s as [|c s (segs & last & -> & Hsegs & Hlast)].
  - exists [], EmptyString. repeat split. constructor.
  - destruct (is_line_terminator c) eqn:Hc.
    + exists ((EmptyString, c) :: segs), last. repeat split; auto.
    + destruct segs as [|[l t] segs].
      * exists [], (String c last). repeat split; [constructor|].
        unfold is_line. simpl. now rewrite Hc.
      * exists ((String c l, t) :: segs), last. repeat split; auto.
        inversion Hsegs as [|? ? [Hl Ht] Hrest]; subst.
        constructor; [|exact Hrest]. split; [|exact Ht].
        unfold is_line. simpl. rewrite Hc. exact Hl.
Qed.



(** ** Number formatting *)

Lemma decimal_fuel_stable (f f' : nat) (n : Z) :
  (0 <= n < 2 ^ (Z.of_nat f + 1))%Z ->
  decimal_fuel (S (f + f')) n = decimal_fuel (S f) n.
Proof.
  revert n. induction f as [|f IH]; intros n Hn.
  - simpl in Hn. simpl. assert ((n <? 10)%Z = true) as -> by (apply Z.ltb_lt; lia).
    reflexivity.
  - cbn [decimal_fuel Nat.add].
    destruct (n <? 10)%Z eqn:E; [reflexivity|].
    apply Z.ltb_ge in E. f_equal. apply IH.
    split; [apply Z.div_pos; lia|].
    apply Z.div_lt_upper_bound; [lia|].
    replace (Z.of_nat (S f) + 1)%Z with (Z.succ (Z.of_nat f + 1)) in Hn by lia.
    rewrite Z.pow_succ_r in Hn by lia. lia.
Qed.

Lemma decimal_enough (f : nat) (n : Z) :
  (0 <= n)%Z -> (Z.to_nat (Z.log2 n) <= f)%nat ->
  decimal_fuel (S f) n = decimal n.
Proof.
  intros Hn Hf. unfold decimal.
  replace f with (Z.to_nat (Z.log2 n) + (f - Z.to_nat (Z.log2 n)))%nat by lia.
  apply decimal_fuel_stable.
  rewrite Z2Nat.id by apply Z.log2_nonneg.
  destruct (Z.eq_dec n 0) as [->|Hz]; [simpl; lia|].
  split; [lia|]. replace (Z.log2 n + 1)%Z with (Z.succ (Z.log2 n)) by lia.
  apply Z.log2_spec. lia.
Qed.

(** The digits of [n]: the digits of [n / 10], then the last digit. *)
Lemma decimal_unfold (n : Z) :
  (0 <= n)%Z ->
  decimal n = if (n <? 10)%Z then chr (digit n)
              else decimal (n / 10) ++ chr (digit (n mod 10)).
Proof.
  intros Hn. unfold decimal at 1. cbn [decimal_fuel].
  destruct (n <? 10)%Z eqn:E; [reflexivity|].
  apply Z.ltb_ge in E. f_equal.
  assert (Hl : (1 <= Z.log2 n)%Z) by (apply Z.log2_le_pow2; simpl; lia).
  replace (Z.to_nat (Z.log2 n)) with (S (Z.to_nat (Z.log2 n) - 1)) by lia.
  apply decimal_enough; [apply Z.div_pos; lia|].
  assert (Z.log2 (n / 10) < Z.log2 n)%Z; [|lia].
  assert (Hd : (0 < n / 10)%Z) by (apply Z.div_str_pos; lia).
  apply Z.log2_lt_pow2; [exact Hd|].
  assert (Hs : (n < 2 ^ Z.succ (Z.log2 n))%Z) by (apply Z.log2_spec; lia).
  rewrite Z.pow_succ_r in Hs by apply Z.log2_nonneg.
  apply Z.div_lt_upper_bound; lia.
Qed.

Lemma decimal_nonempty (n : Z) :
  (0 <= n)%Z -> (1 <= String.length (decimal n))%nat.
Proof.
  intros Hn. rewrite decimal_unfold by exact Hn.
  destruct (n <? 10)%Z; [simpl; lia|].
  rewrite length_append. simpl. lia.
Qed.

Lemma digit_zero (d : Z) :
  (0 <= d < 10)%Z -> (digit d = digit 0 <-> d = 0%Z).
Proof.
  intros Hd. split; [|now intros ->].
  unfold digit. intros H.
  apply (f_equal N_of_ascii) in H.
  rewrite !N_ascii_embedding in H by lia. lia.
Qed.

(** [toFixed]'s padding and splitting for two fraction digits. *)
Lemma toFixed_digits_two (a : Q) :
  let n := Qfloor (a * 100 + (1 # 2)) in
  (0 <= n)%Z ->
  toFixed_digits a 2
  = decimal (n / 100) ++ "." ++
    chr (digit (n / 10 mod 10)) ++ chr (digit (n mod 10)).
Proof.
  intros n Hn. unfold toFixed_digits.
  change (Qfloor (a * pow10 (Z.of_nat 2) + (1 # 2))) with n.
  cbn [Nat.eqb].
  rewrite (decimal_unfold n Hn).
  destruct (n <? 10)%Z eqn:E1.
  - apply Z.ltb_lt in E1.
    rewrite (Z.div_small n 100), (Z.div_small n 10), (Z.mod_small n 10) by lia.
    reflexivity.
  - apply Z.ltb_ge in E1.
    rewrite (decimal_unfold (n / 10)) by (apply Z.div_pos; lia).
    replace (n / 100)%Z with (n / 10 / 10)%Z
      by (rewrite Z.div_div by lia; reflexivity).
    destruct (n / 10 <? 10)%Z eqn:E2.
    + apply Z.ltb_lt in E2.
      rewrite (Z.div_small (n / 10) 10), (Z.mod_small (n / 10) 10)
        by (split; [apply Z.div_pos|]; lia).
      reflexivity.
    + apply Z.ltb_ge in E2.
      set (A := decimal (n / 10 / 10)).
      set (d1 := digit (n / 10 mod 10)). set (d0 := digit (n mod 10)).
      assert (HA : (1 <= String.length A)%nat).
      { apply decimal_nonempty. apply Z.div_pos; [apply Z.div_pos|]; lia. }
      rewrite append_assoc.
      change (chr d1 ++ chr d0) with (String d1 (String d0 EmptyString)).
      assert (HL : String.length (A ++ String d1 (String d0 EmptyString))
                   = (String.length A + 2)%nat) by (rewrite length_append; reflexivity).
      rewrite HL.
      replace (String.length A + 2 <=? 2)%nat with false
        by (symmetry; apply Nat.leb_gt; lia).
      rewrite HL.
      replace (String.length A + 2 - 2)%nat with (String.length A) by lia.
      rewrite substring_prefix.
      change 2%nat with (String.length (String d1 (String d0 EmptyString))) at 1.
      rewrite substring_suffix. reflexivity.
Qed.

Lemma strip_dot00_cons (c : ascii) (s : string) :
  strip_dot00 (String c s)
  = if String.eqb (String c s) ".00" then EmptyString
    else String c (strip_dot00 s).
Proof. reflexivity. Qed.

Lemma strip_dot00_short (s : string) :
  (String.length s < 3)%nat -> strip_dot00 s = s.
Proof.
  induction s as [|c s IH]; intros Hlen; [reflexivity|].
  rewrite strip_dot00_cons.
  assert (N : String.eqb (String c s) ".00" = false).
  { apply String.eqb_neq. intros H. rewrite H in Hlen. simpl in Hlen. lia. }
  rewrite N, IH; [reflexivity | simpl in Hlen; lia].
Qed.

(** The replacement acts on a final [.00] and on nothing else. *)
Lemma strip_dot00_fixed (p : string) (c1 c0 : ascii) :
  strip_dot00 (p ++ "." ++ chr c1 ++ chr c0)
  = if (Ascii.eqb c1 "0" && Ascii.eqb c0 "0")%bool then p
    else p ++ "." ++ chr c1 ++ chr c0.
Proof.
  induction p as [|c p IH].
  - change (EmptyString ++ "." ++ chr c1 ++ chr c0)
      with (String "." (String c1 (String c0 EmptyString))).
    rewrite strip_dot00_cons.
    destruct (String.eqb_spec (String "." (String c1 (String c0 EmptyString))) ".00")
      as [E|E].
    + injection E as -> ->. reflexivity.
    + rewrite strip_dot00_short by (simpl; lia).
      destruct (Ascii.eqb_spec c1 "0") as [->|]; [|reflexivity].
      destruct (Ascii.eqb_spec c0 "0") as [->|]; [|reflexivity].
      now elim E.
  - change (String c p ++ "." ++ chr c1 ++ chr c0)
      with (String c (p ++ "." ++ chr c1 ++ chr c0)).
    rewrite strip_dot00_cons, IH.
    assert (N : String.eqb (String c (p ++ "." ++ chr c1 ++ chr c0)) ".00" = false).
    { apply String.eqb_neq. intros H. apply (f_equal String.length) in H.
      simpl in H. rewrite length_append in H. simpl in H. lia. }
    rewrite N. destruct (Ascii.eqb c1 "0" && Ascii.eqb c0 "0")%bool; reflexivity.
Qed.

Lemma hundredths_nonneg (q : Q) : (0 <= hundredths q)%Z.
Proof.
  unfold hundredths. change 0%Z with (Qfloor 0).
  apply Qfloor_resp_le.
  pose proof (Qabs_nonneg q). lra.
Qed.

Lemma hundredths_nearest (q : Q) :
  inject_Z (hundredths q) - (1 # 2) <= Qabs q * 100
  /\ Qabs q * 100 < inject_Z (hundredths q) + (1 # 2).
Proof.
  unfold hundredths.
  pose proof (Qfloor_le (Qabs q * 100 + (1 # 2))) as Hlo.
  pose proof (Qlt_floor (Qabs q * 100 + (1 # 2))) as Hhi.
  rewrite inject_Z_plus in Hhi. change (inject_Z 1) with 1 in Hhi.
  split; lra.
Qed.

(** C1, as the code has it.  For every finite number of magnitude below
    [10^21], [sliceNum] rounds to the nearest hundredth (the larger
    magnitude on a tie) and prints sign, integer part and exactly two
    decimals, except that the decimal point and both decimals are dropped
    when both are zero.  A single trailing zero stays: 12.5 is printed as
    12.50. *)
Theorem sliceNum_two_decimals (q : Q) (H : Qabs q < pow10 21) :
  let n := hundredths q in
  (inject_Z n - (1 # 2) <= Qabs q * 100 /\ Qabs q * 100 < inject_Z n + (1 # 2))
  /\ sliceNum (Fin q)
     = (if (Qnum q <? 0)%Z then "-" else EmptyString) ++
       decimal (n / 100) ++
       (if (n mod 100 =? 0)%Z then EmptyString
        else "." ++ chr (digit (n / 10 mod 10)) ++ chr (digit (n mod 10))).
Proof.
  intros n. split; [apply hundredths_nearest|].
  pose proof (hundredths_nonneg q) as Hn. fold n in Hn.
  unfold sliceNum, toFixed.
  assert (E : Qle_bool (pow10 21) (Qabs q) = false).
  { destruct (Qle_bool (pow10 21) (Qabs q)) eqn:E; [|reflexivity].
    apply Qle_bool_iff in E. exfalso. apply (Qlt_not_le _ _ H E). }
  rewrite E.
  rewrite (toFixed_digits_two (Qabs q) Hn). fold (hundredths q). fold n.
  rewrite <- append_assoc, strip_dot00_fixed.
  clearbody n.
  assert (H1 : (0 <= n / 10 mod 10 < 10)%Z) by (apply Z.mod_pos_bound; lia).
  assert (H0 : (0 <= n mod 10 < 10)%Z) by (apply Z.mod_pos_bound; lia).
  change "0"%char with (digit 0).
  destruct (Z.eqb_spec (n mod 100) 0) as [Z|NZ].
  - assert (Z1 : (n / 10 mod 10 = 0)%Z) by (clear - Z Hn; Z.div_mod_to_equations; lia).
    assert (Z0 : (n mod 10 = 0)%Z) by (clear - Z Hn; Z.div_mod_to_equations; lia).
    rewrite Z1, Z0. rewrite append_nil_r. reflexivity.
  - destruct (Ascii.eqb_spec (digit (n / 10 mod 10)) (digit 0)) as [E1|E1];
      [|now rewrite append_assoc].
    destruct (Ascii.eqb_spec (digit (n mod 10)) (digit 0)) as [E0|E0];
      [|now rewrite append_assoc].
    apply digit_zero in E1; [|exact H1]. apply digit_zero in E0; [|exact H0].
    exfalso. apply NZ. clear - E1 E0 Hn. Z.div_mod_to_equations. lia.
Qed.

Lemma sliceNum_two_decimals_witness :
  Qabs (25 # 2) < pow10 21 /\ sliceNum (Fin (25 # 2)) = "12.50".
Proof.
  assert (B : Qabs (25 # 2) < pow10 21) by reflexivity.
  split; [exact B|].
  exact (proj2 (sliceNum_two_decimals (25 # 2) B)).
Defined.

(** C1 as worded fails at 12.5: the result is 12.50, not 12.5. *)
Lemma sliceNum_keeps_one_trailing_zero :
  is_double (25 # 2) = true
  /\ sliceNum (Fin (25 # 2)) = "12.50"
  /\ sliceNum (Fin (25 # 2)) <> "12.5".
Proof.
  split; [vm_compute; reflexivity|].
  split; [vm_compute; reflexivity|].
  apply eqb_false_neq. vm_compute. reflexivity.
Qed.

(** ** Colour extractors *)

Lemma rgba_not_transparent (c : RGB) (o : option number) :
  rgbaFromRGB c o <> "transparent".
Proof. unfold rgbaFromRGB. cbn [append]. discriminate. Qed.

(** What both extractors do with a paint list. *)
Lemma paint_color_cases (paints : option (mixed (list Paint))) (node : SceneNode)
    (get : SceneNode -> string) :
  get node
  = match paints with
    | Some (Value (p0 :: _)) =>
        if String.eqb (paint_type p0) "SOLID"
        then rgbaFromRGB (color p0)
                         (Some (or_default (paint_opacity p0) (num 1)))
        else "transparent"
    | _ => "transparent"
    end ->
  (forall p rest, paints = Some (Value (p :: rest)) -> paint_type p = "SOLID" ->
     get node = rgbaFromRGB (color p) (Some (rendered_opacity p))
     /\ get node <> "transparent")
  /\ ((forall p rest, paints = Some (Value (p :: rest)) ->
         paint_type p <> "SOLID") ->
      get node = "transparent").
Proof.
  intros ->. split.
  - intros p rest -> Hs. rewrite Hs, String.eqb_refl.
    split; [reflexivity | apply rgba_not_transparent].
  - intros Hno. destruct paints as [[|[|p rest]]|]; try reflexivity.
    destruct (String.eqb_spec (paint_type p) "SOLID") as [E|E]; [|reflexivity].
    now elim (Hno p rest eq_refl).
Qed.

(** C2, as the code has it.  [getBackgroundColor] looks at the first entry
    of the fill list only: when that entry is solid the result is its rgba
    rendering with the entry's opacity (1 when the opacity is absent, zero
    or NaN), whatever follows it in the list; the result is "transparent"
    exactly when the list is absent, mixed, empty, or starts with an entry
    that is not solid.  [getBorderColor] does the same with the stroke
    list. *)
Theorem color_of_first_entry (node : SceneNode) :
  ((forall p rest, fills node = Some (Value (p :: rest)) ->
      paint_type p = "SOLID" ->
      getBackgroundColor node = rgbaFromRGB (color p) (Some (rendered_opacity p))
      /\ getBackgroundColor node <> "transparent")
   /\ ((forall p rest, fills node = Some (Value (p :: rest)) ->
          paint_type p <> "SOLID") ->
       getBackgroundColor node = "transparent"))
  /\
  ((forall p rest, strokes node = Some (Value (p :: rest)) ->
      paint_type p = "SOLID" ->
      getBorderColor node = rgbaFromRGB (color p) (Some (rendered_opacity p))
      /\ getBorderColor node <> "transparent")
   /\ ((forall p rest, strokes node = Some (Value (p :: rest)) ->
          paint_type p <> "SOLID") ->
       getBorderColor node = "transparent")).
Proof.
  split.
  - apply (paint_color_cases (fills node) node getBackgroundColor). reflexivity.
  - apply (paint_color_cases (strokes node) node getBorderColor). reflexivity.
Qed.

Lemma color_of_first_entry_witness :
  getBackgroundColor
    (Node (with_fills (Some (Value [solid_red; gradient])) (bare "RECTANGLE")) [])
  = "rgba(255, 0, 0, 1)"
  /\ getBorderColor
       (Node (with_fills (Some (Value [solid_red; gradient])) (bare "RECTANGLE")) [])
     = "transparent".
Proof.
  pose (node := Node (with_fills (Some (Value [solid_red; gradient]))
                                 (bare "RECTANGLE")) []).
  destruct (color_of_first_entry node) as [[Hfill _] [_ Hstroke]].
  split.
  - exact (proj1 (Hfill solid_red [gradient] eq_refl eq_refl)).
  - apply Hstroke. intros p rest E. discriminate E.
Defined.

(** C2 as worded fails when a solid entry comes second: the list holds a
    solid entry, yet the extractors answer "transparent". *)
Lemma color_ignores_later_solid_entry :
  let node :=
    Node (with_strokes (Some (Value [gradient; solid_red]))
            (with_fills (Some (Value [gradient; solid_red])) (bare "RECTANGLE")))
         [] in
  first_solid_color (fills node) = "rgba(255, 0, 0, 1)"
  /\ getBackgroundColor node = "transparent"
  /\ getBackgroundColor node <> first_solid_color (fills node)
  /\ getBorderColor node <> first_solid_color (strokes node).
Proof.
  cbv zeta. split; [vm_compute; reflexivity|].
  split; [vm_compute; reflexivity|].
  split; apply eqb_false_neq; vm_compute; reflexivity.
Qed.

(** ** The recursion over the tree *)

Lemma WidgetGenerator_singleton (child : SceneNode) :
  WidgetGenerator [child]
  = if visible child then renderNode child else EmptyString.
Proof. unfold WidgetGenerator. simpl. now destruct (visible child). Qed.

(** A generator reads its node's own properties, the number of children
    and the renderings of the children, and nothing else. *)
Lemma render_case_children (f f' : SceneNode -> string) (p : NodeProps)
    (cs cs' : list SceneNode) :
  map f cs = map f' cs' ->
  render_case f (Node p cs) = render_case f' (Node p cs').
Proof.
  intros E.
  assert (L : List.length cs = List.length cs').
  { rewrite <- (length_map f cs), <- (length_map f' cs'). now rewrite E. }
  unfold render_case, generateGroupPrompt, generateFramePrompt,
    generateSectionPrompt, childrenPrompts, show_length, is_kind.
  cbn [children props]. rewrite E, L. reflexivity.
Qed.

(** The recursion equation of the source: the [switch] applied to the
    node, with [WidgetGenerator [child]] for every child. *)
Lemma renderNode_eq (node : SceneNode) :
  renderNode node = render_case renderChild node.
Proof.
  destruct node as [p cs].
  change (renderNode (Node p cs))
    with (render_case
            (fun child => if visible child then renderNode child else EmptyString)
            (Node p cs)).
  apply render_case_children. apply map_ext.
  intros c. unfold renderChild. now rewrite WidgetGenerator_singleton.
Qed.

Lemma WidgetGenerator_eq (sceneNode : list SceneNode) :
  WidgetGenerator sceneNode
  = join nl (map (render_case renderChild)
                 (filter (fun node : SceneNode => visible node) sceneNode)).
Proof.
  unfold WidgetGenerator. f_equal. apply map_ext. apply renderNode_eq.
Qed.

Lemma map_Some_filter_notEmpty {A : Type} (l : list (option A)) :
  map Some (filter_notEmpty l) = filter notEmpty l.
Proof.
  induction l as [|[a|] l IH]; simpl; [reflexivity | now rewrite IH | exact IH].
Qed.

(** Which generator the [switch] picks, by kind. *)
Lemma render_case_group (f : SceneNode -> string) (node : SceneNode) :
  is_kind node "GROUP" = true -> render_case f node = generateGroupPrompt f node.
Proof.
  unfold render_case, is_kind. intros H. apply String.eqb_eq in H.
  rewrite H. reflexivity.
Qed.

Lemma render_case_section (f : SceneNode -> string) (node : SceneNode) :
  is_kind node "SECTION" = true ->
  render_case f node = generateSectionPrompt f node.
Proof.
  unfold render_case, is_kind. intros H. apply String.eqb_eq in H.
  rewrite H. reflexivity.
Qed.

Lemma render_case_frame (f : SceneNode -> string) (node : SceneNode) :
  is_frame_like node = true -> render_case f node = generateFramePrompt f node.
Proof.
  unfold render_case, is_frame_like, is_kind. intros H.
  repeat (apply orb_true_iff in H; destruct H as [H|H]);
    apply String.eqb_eq in H; rewrite H; reflexivity.
Qed.

Lemma render_case_text (f : SceneNode -> string) (node : SceneNode) :
  is_kind node "TEXT" = true -> render_case f node = generateTextPrompt node.
Proof.
  unfold render_case, is_kind. intros H. apply String.eqb_eq in H.
  rewrite H. reflexivity.
Qed.

Lemma render_case_shape (f : SceneNode -> string) (node : SceneNode) :
  is_kind node "RECTANGLE" || is_kind node "ELLIPSE" = true ->
  render_case f node = generateContainerPrompt node.
Proof.
  unfold render_case. now intros ->.
Qed.


(** ** Invisible nodes *)




Lemma filter_visible_idem (l : list SceneNode) :
  filter (fun node : SceneNode => visible node)
         (filter (fun node : SceneNode => visible node) l)
  = filter (fun node : SceneNode => visible node) l.
Proof.
  induction l as [|n l IH]; [reflexivity|].
  cbn [filter]. destruct (visible n) eqn:V; [|exact IH].
  cbn [filter]. rewrite V. now rewrite IH.
Qed.



(** ** Containers *)

Lemma join_all_empty (l : list string) :
  Forall (fun s => s = EmptyString) l ->
  join nl l = String_repeat nl (List.length l - 1).
Proof.
  induction 1 as [|s l Hs Hl IH]; [reflexivity|].
  subst s. destruct l as [|s' l]; [reflexivity|].
  change (join nl (EmptyString :: s' :: l)) with (nl ++ join nl (s' :: l)).
  rewrite IH. cbn [List.length Nat.sub]. rewrite Nat.sub_0_r. reflexivity.
Qed.

Lemma indentString_newlines (n k : nat) :
  indentString (String_repeat nl k) n = String_repeat nl k.
Proof.
  unfold indentString. induction k as [|k IH]; [reflexivity|].
  change (String_repeat nl (S k)) with (String LF (String_repeat nl k)).
  cbn [indent_from blank_ahead].
  change (is_line_terminator LF) with true. cbn [orb negb andb append].
  now rewrite IH.
Qed.

(** The child block of a container whose children are all invisible: one
    line break between each two children and nothing else. *)
Lemma children_block_all_hidden (node : SceneNode) :
  forallb (fun c : SceneNode => negb (visible c)) (children node) = true ->
  children_block node = String_repeat nl (List.length (children node) - 1).
Proof.
  intros H. unfold children_block, childrenPrompts.
  rewrite join_all_empty.
  - rewrite length_map. apply indentString_newlines.
  - apply Forall_map. apply Forall_forall. intros c Hc.
    rewrite forallb_forall in H. specialize (H c Hc).
    unfold renderChild. rewrite WidgetGenerator_singleton.
    apply negb_true_iff in H. now rewrite H.
Qed.

(** Every container generator ends with a line break and the child
    block, and says how many children there are before that. *)
Lemma container_shape (node : SceneNode) :
  is_container node = true ->
  exists pre post,
    renderNode node
    = (pre ++ " with " ++ show_length (children node) ++
       " children, dimensions " ++ post)
      ++ nl ++ children_block node.
Proof.
  intros H. rewrite renderNode_eq.
  pose (geometry := sliceNum (width node) ++ "x" ++ sliceNum (height node) ++
                    "px, positioned at (" ++ sliceNum (x node) ++ "," ++
                    sliceNum (y node)).
  assert (F : is_frame_like node = true ->
              render_case renderChild node
              = (("- A " ++ toLowerCase (type node) ++ " frame" ++
                  componentName node) ++ " with " ++
                 show_length (children node) ++ " children, dimensions " ++
                 geometry ++ ")px, " ++ layoutInfo node ++ ":")
                ++ nl ++ children_block node).
  { intros Hf. rewrite (render_case_frame _ _ Hf).
    unfold generateFramePrompt, geometry, children_block.
    now rewrite !append_assoc. }
  unfold is_container in H.
  repeat (apply orb_true_iff in H; destruct H as [H|H]).
  - rewrite (render_case_group _ _ H).
    exists ("- A group" ++ componentName node),
           (geometry ++ ")px, with properties:").
    unfold generateGroupPrompt, geometry, children_block.
    now rewrite !append_assoc.
  - rewrite (render_case_section _ _ H).
    exists ("- A section node" ++ componentName node), (geometry ++ ")px:").
    unfold generateSectionPrompt, geometry, children_block.
    now rewrite !append_assoc.
  - eexists _, _. apply F. unfold is_frame_like. now rewrite H.
  - eexists _, _. apply F. unfold is_frame_like. rewrite H.
    now rewrite ?orb_true_r.
  - eexists _, _. apply F. unfold is_frame_like. rewrite H.
    now rewrite ?orb_true_r.
  - eexists _, _. apply F. unfold is_frame_like. rewrite H.
    now rewrite ?orb_true_r.
Qed.

(** C4, as the code has it.  A Group, Section, Frame, Component,
    ComponentSet or Instance node is rendered as a line that reports the
    number of all its children, invisible ones included, then a line break
    and the indented child block.  When all its children are invisible the
    block holds no text: it consists of the line breaks that separate the
    children, one less than there are children, and so is empty only when
    there is at most one child. *)
Theorem container_counts_all_children (node : SceneNode)
    (H : is_container node = true) :
  (exists line,
      renderNode node = line ++ nl ++ children_block node
      /\ contains line
           (" with " ++ decimal (Z.of_nat (List.length (children node)))
            ++ " children, "))
  /\ (forallb (fun c : SceneNode => negb (visible c)) (children node) = true ->
      children_block node = String_repeat nl (List.length (children node) - 1)
      /\ ((List.length (children node) <= 1)%nat ->
          children_block node = EmptyString)).
Proof.
  split.
  - destruct (container_shape node H) as (pre & post & E).
    eexists. split; [exact E|].
    exists pre, ("dimensions " ++ post).
    unfold show_length. now rewrite !append_assoc.
  - intros A. pose proof (children_block_all_hidden node A) as B.
    split; [exact B|]. intros L. rewrite B.
    replace (List.length (children node) - 1)%nat with 0%nat by lia.
    reflexivity.
Qed.

Lemma container_counts_all_children_witness :
  children_block group_one_hidden = EmptyString
  /\ children_block group_two_hidden = nl
  /\ exists line,
       renderNode group_two_hidden = line ++ nl ++ nl
       /\ contains line " with 2 children, ".
Proof.
  split; [|split].
  - refine (proj2 (proj2 (container_counts_all_children group_one_hidden eq_refl)
                      eq_refl) _).
    simpl. lia.
  - exact (proj1 (proj2 (container_counts_all_children group_two_hidden eq_refl)
                    eq_refl)).
  - destruct (proj1 (container_counts_all_children group_two_hidden eq_refl))
      as (line & E & C).
    exists line. split; [|exact C].
    rewrite E. reflexivity.
Defined.

(** C4 as worded fails for two invisible children: the child block is a
    line break, not the empty string. *)
Lemma all_hidden_block_not_empty :
  forallb (fun c : SceneNode => negb (visible c)) (children group_two_hidden)
  = true
  /\ renderNode group_two_hidden
     = "- A group with 2 children, dimensions 0x0px, positioned at (0,0)px, with properties:"
       ++ nl ++ nl
  /\ children_block group_two_hidden = nl
  /\ children_block group_two_hidden <> EmptyString.
Proof.
  split; [reflexivity|].
  split; [vm_compute; reflexivity|].
  split; [vm_compute; reflexivity|].
  apply eqb_false_neq. vm_compute. reflexivity.
Qed.

(** ** Unsupported kinds *)



Lemma filter_notEmpty_app {A : Type} (l l' : list (option A)) :
  filter_notEmpty (l ++ l')%list
  = (filter_notEmpty l ++ filter_notEmpty l')%list.
Proof.
  induction l as [|[a|] l IH]; simpl; [reflexivity | now rewrite IH | exact IH].
Qed.

Lemma convertIntoNodes_app (l l' : list SceneNode) :
  convertIntoNodes (l ++ l')%list
  = (convertIntoNodes l ++ convertIntoNodes l')%list.
Proof.
  unfold convertIntoNodes. now rewrite map_app, filter_notEmpty_app.
Qed.




(** ** The message handler *)

Lemma notice_has_no_layout : ~ contains "No nodes selected." "### Layout:".
Proof.
  intros (pre & post & E).
  repeat (destruct pre as [|? pre];
          [discriminate E | cbn [append] in E; injection E as _ E]).
  destruct pre; discriminate E.
Qed.

(** C6.  On a [generate] message the handler posts one prompt.  It is the
    literal notice, which has no Layout section, exactly when the
    selection is absent or empty; for every other selection, whatever the
    kinds of its nodes, it is the full prompt, which has the Layout
    heading followed by the rendering of the converted selection. *)
Theorem notice_iff_no_selection (selection : option (list SceneNode))
    (msg : Message) (H : msg_type msg = "generate") :
  exists p,
    onmessage selection msg = [mkPosted "prompt" p]
    /\ (p = "No nodes selected."
        <-> (selection = None \/ selection = Some []))
    /\ (p = "No nodes selected." -> ~ contains p "### Layout:")
    /\ (forall nodes, selection = Some nodes -> nodes <> [] ->
        p = overview msg ++ layout (Main (convertIntoNodes nodes))
            ++ implementation_and_usage msg
        /\ contains p ("### Layout:" ++ nl)).
Proof.
  unfold onmessage. rewrite H. cbn [String.eqb].
  change (String.eqb "generate" "generate") with true. cbv iota.
  destruct selection as [[|n l]|].
  - eexists. split; [reflexivity|]. split; [tauto|]. split.
    + intros _. apply notice_has_no_layout.
    + intros nodes [= <-] N. now elim N.
  - eexists. split; [reflexivity|]. split; [|split].
    + split.
      * unfold overview. cbn [append]. discriminate.
      * intros [E|E]; discriminate E.
    + unfold overview. cbn [append]. discriminate.
    + intros nodes [= <-] _. split; [reflexivity|].
      exists (overview msg),
             ("- This layout is created based on the selected nodes from Figma."
              ++ nl ++ Main (convertIntoNodes (n :: l))
              ++ implementation_and_usage msg).
      unfold layout. now rewrite !append_assoc.
  - eexists. split; [reflexivity|]. split; [tauto|]. split.
    + intros _. apply notice_has_no_layout.
    + intros nodes E. discriminate E.
Qed.

Lemma notice_iff_no_selection_witness :
  onmessage (Some []) sample_msg = [mkPosted "prompt" "No nodes selected."]
  /\ exists p,
       onmessage (Some [slice_node]) sample_msg = [mkPosted "prompt" p]
       /\ p <> "No nodes selected."
       /\ contains p ("### Layout:" ++ nl).
Proof.
  split.
  - destruct (notice_iff_no_selection (Some []) sample_msg eq_refl)
      as (p & E & I & _).
    rewrite E. f_equal. f_equal. apply I. now right.
  - destruct (notice_iff_no_selection (Some [slice_node]) sample_msg eq_refl)
      as (p & E & I & _ & F).
    exists p. split; [exact E|]. split.
    + intros N. apply I in N. destruct N as [N|N]; discriminate N.
    + apply (F [slice_node] eq_refl). discriminate.
Defined.

(** ** Frames *)

(** C7.  For a Frame, Component, ComponentSet or Instance node the layout
    information, which stands between the position and the colon that
    ends the line, is the literal "Layout mode: NONE" when the layout mode
    is NONE, and otherwise gives the layout mode, the primary and counter
    axis alignments and the padding string of [getPadding]. *)
Theorem frame_layout_info (node : SceneNode) (H : is_frame_like node = true) :
  (layoutMode node = "NONE" ->
   renderNode node
   = frame_head node ++ "Layout mode: NONE" ++ ":" ++ nl ++ children_block node)
  /\ (layoutMode node <> "NONE" ->
      renderNode node
      = frame_head node ++
        ("Layout mode: " ++ layoutMode node ++
         ", Alignment: " ++ primaryAxisAlignItems node ++ "/" ++
         counterAxisAlignItems node ++
         ", Padding: " ++ getPadding node)
        ++ ":" ++ nl ++ children_block node).
Proof.
  rewrite renderNode_eq, (render_case_frame _ _ H).
  unfold generateFramePrompt, frame_head, layoutInfo, children_block.
  split; intros M.
  - rewrite M. cbn [String.eqb]. change (String.eqb "NONE" "NONE") with true.
    cbn [negb]. now rewrite !append_assoc.
  - apply String.eqb_neq in M. rewrite M. cbn [negb].
    now rewrite !append_assoc.
Qed.

Lemma frame_layout_info_witness :
  renderNode (Node (bare "FRAME") [])
  = "- A frame frame with 0 children, dimensions 0x0px, positioned at (0,0)px, Layout mode: NONE:"
    ++ nl
  /\ renderNode (Node (with_layout "HORIZONTAL" (bare "INSTANCE")) [])
     = "- A instance frame with 0 children, dimensions 0x0px, positioned at (0,0)px, Layout mode: HORIZONTAL, Alignment: CENTER/MIN, Padding: 8px 0px 0px 4px:"
       ++ nl.
Proof.
  split.
  - exact (proj1 (frame_layout_info (Node (bare "FRAME") []) eq_refl) eq_refl).
  - refine (proj2 (frame_layout_info
                     (Node (with_layout "HORIZONTAL" (bare "INSTANCE")) [])
                     eq_refl) _).
    discriminate.
Defined.

(** ** Text nodes *)

Lemma escape_newlines_app (s t : string) :
  escape_newlines (s ++ t) = escape_newlines s ++ escape_newlines t.
Proof.
  induction s as [|c s IH]; [reflexivity|].
  cbn [append escape_newlines]. rewrite IH.
  destruct (Ascii.eqb c LF); [now rewrite append_assoc | reflexivity].
Qed.

Lemma escape_newlines_id (s : string) :
  has_newline s = false -> escape_newlines s = s.
Proof.
  unfold has_newline. induction s as [|c s IH]; [reflexivity|].
  cbn [list_ascii_of_string existsb escape_newlines].
  intros H. apply orb_false_iff in H. destruct H as [Hc Hs].
  rewrite Ascii.eqb_sym, Hc. now rewrite IH.
Qed.

Lemma escape_newlines_clean (s : string) :
  has_newline (escape_newlines s) = false.
Proof.
  unfold has_newline. induction s as [|c s IH]; [reflexivity|].
  cbn [escape_newlines]. destruct (Ascii.eqb c LF) eqn:E.
  - cbn [backslash_n append list_ascii_of_string existsb]. rewrite IH.
    reflexivity.
  - cbn [list_ascii_of_string existsb]. rewrite Ascii.eqb_sym, E. exact IH.
Qed.

(** C9.  The line of a Text node gives, between double quotes after
    "content: ", the node's characters with every line feed replaced by
    two characters, a backslash (code 92) and the letter n (code 110): the
    replacement goes through the text piece by piece, turns each line feed
    into those two characters, leaves text without line feeds as it is,
    and leaves no line feed behind. *)
Theorem text_newlines_escaped (node : SceneNode)
    (H : is_kind node "TEXT" = true) :
  (exists rest,
      renderNode node
      = "- Text node" ++ componentName node ++ " with content: " ++
        chr DQUOTE ++ escape_newlines (characters node) ++ chr DQUOTE ++
        ", font size " ++ rest)
  /\ (forall s t,
        escape_newlines (s ++ String (ascii_of_nat 10) t)
        = escape_newlines s ++
          String (ascii_of_nat 92) (String (ascii_of_nat 110)
                                           (escape_newlines t)))
  /\ (forall s, has_newline s = false -> escape_newlines s = s)
  /\ has_newline (escape_newlines (characters node)) = false.
Proof.
  split; [|split; [|split]].
  - rewrite renderNode_eq, (render_case_text _ _ H).
    unfold generateTextPrompt. eexists. reflexivity.
  - intros s t. now rewrite escape_newlines_app.
  - apply escape_newlines_id.
  - apply escape_newlines_clean.
Qed.

Lemma text_newlines_escaped_witness :
  escape_newlines (String "a" (String (ascii_of_nat 10) "b"))
  = String "a" (String (ascii_of_nat 92) (String (ascii_of_nat 110) "b"))
  /\ String.length (escape_newlines (String "a" (String (ascii_of_nat 10) "b")))
     = 4%nat
  /\ exists rest,
       renderNode text_a_b
       = "- Text node with content: " ++
         String (ascii_of_nat 34)
           (String "a" (String (ascii_of_nat 92) (String (ascii_of_nat 110)
              (String "b" (String (ascii_of_nat 34) (", font size " ++ rest)))))).
Proof.
  destruct (text_newlines_escaped text_a_b eq_refl) as ((rest & E) & A & _).
  pose proof (A "a" "b") as Eab.
  split; [exact Eab|]. split.
  - exact (f_equal String.length Eab).
  - exists rest. exact E.
Defined.

(** ** Zero opacity *)

Lemma zero_is_falsy (q : Q) : q == 0 -> truthy (Fin q) = false.
Proof.
  unfold Qeq, truthy. simpl. intros H.
  assert (Qnum q = 0)%Z as -> by lia. reflexivity.
Qed.

Lemma or_default_zero (q : Q) (d : number) :
  q == 0 -> or_default (Some (Fin q)) d = d.
Proof. intros H. unfold or_default. now rewrite (zero_is_falsy q H). Qed.

Lemma full_opacity_percent : Number_toString (nearestOpacity (num 1)) = "100".
Proof. vm_compute. reflexivity. Qed.

Lemma one_prints : Number_toString (num 1) = "1".
Proof. vm_compute. reflexivity. Qed.

Lemma rgba_alpha_one (c : RGB) :
  exists rgb, rgbaFromRGB c (Some (num 1)) = "rgba(" ++ rgb ++ ", 1)".
Proof.
  unfold rgbaFromRGB. rewrite one_prints.
  exists (Number_toString (Math_round (fmul (r c) (num 255))) ++ ", " ++
          Number_toString (Math_round (fmul (g c) (num 255))) ++ ", " ++
          Number_toString (Math_round (fmul (b c) (num 255)))).
  now rewrite !append_assoc.
Qed.

Lemma paint_color_zero_opacity (paints : option (mixed (list Paint)))
    (node : SceneNode) (get : SceneNode -> string) (q : Q) :
  q == 0 ->
  get node
  = match paints with
    | Some (Value (p0 :: _)) =>
        if String.eqb (paint_type p0) "SOLID"
        then rgbaFromRGB (color p0)
                         (Some (or_default (paint_opacity p0) (num 1)))
        else "transparent"
    | _ => "transparent"
    end ->
  forall p rest,
    paints = Some (Value (p :: rest)) -> paint_type p = "SOLID" ->
    paint_opacity p = Some (Fin q) ->
    get node = rgbaFromRGB (color p) (Some (num 1))
    /\ exists rgb, get node = "rgba(" ++ rgb ++ ", 1)".
Proof.
  intros Hq -> p rest -> Hs Ho.
  rewrite Hs, String.eqb_refl, Ho, (or_default_zero q _ Hq).
  split; [reflexivity | apply rgba_alpha_one].
Qed.

(** C10.  An opacity of exactly 0 is read as no opacity at all.  A
    Rectangle, Ellipse or Text node whose opacity is 0 is rendered exactly
    as it would be without an opacity, with "opacity at 100%" in its line;
    and a solid first fill or stroke entry whose opacity is 0 is rendered
    with alpha 1. *)
Theorem zero_opacity_is_full (node : SceneNode) (q : Q) (Hq : q == 0) :
  (is_kind node "RECTANGLE" || is_kind node "ELLIPSE" || is_kind node "TEXT"
   = true ->
   opacity node = Some (Fin q) ->
   contains (renderNode node) "opacity at 100%"
   /\ renderNode node
      = renderNode (Node (with_opacity None node) (children node)))
  /\ (forall p rest,
        fills node = Some (Value (p :: rest)) -> paint_type p = "SOLID" ->
        paint_opacity p = Some (Fin q) ->
        getBackgroundColor node = rgbaFromRGB (color p) (Some (num 1))
        /\ exists rgb, getBackgroundColor node = "rgba(" ++ rgb ++ ", 1)")
  /\ (forall p rest,
        strokes node = Some (Value (p :: rest)) -> paint_type p = "SOLID" ->
        paint_opacity p = Some (Fin q) ->
        getBorderColor node = rgbaFromRGB (color p) (Some (num 1))
        /\ exists rgb, getBorderColor node = "rgba(" ++ rgb ++ ", 1)").
Proof.
  split; [|split].
  - intros K Ho. rewrite !renderNode_eq.
    apply orb_true_iff in K. destruct K as [K|K].
    + rewrite (render_case_shape _ node K).
      rewrite (render_case_shape _ (Node (with_opacity None node) (children node)) K).
      unfold generateContainerPrompt at 1 2.
      rewrite Ho, (or_default_zero q _ Hq), full_opacity_percent.
      split; [|reflexivity].
      exists ("- A " ++ toLowerCase (type node) ++ componentName node ++
              " with dimensions " ++ sliceNum (width node) ++ "x" ++
              sliceNum (height node) ++
              "px, positioned at (" ++ sliceNum (x node) ++ "," ++
              sliceNum (y node) ++
              ")px, with background color " ++ getBackgroundColor node ++
              ", border width " ++ getBorderWidth node ++ " color " ++
              getBorderColor node ++ ", "),
             (", border radius " ++ getBorderRadius node ++
              ", and shadow " ++ join ", " (getShadow node) ++ ".").
      now rewrite !append_assoc.
    + rewrite (render_case_text _ node K).
      rewrite (render_case_text _ (Node (with_opacity None node) (children node)) K).
      unfold generateTextPrompt at 1 2.
      rewrite Ho, (or_default_zero q _ Hq), full_opacity_percent.
      split; [|reflexivity].
      match goal with
      | |- contains (?a ++ ?b ++ ?c ++ ?d ++ ?e ++ ?f ++ ?g ++ ?h ++ ?i ++ ?j
                     ++ ?k ++ ?l ++ ?m ++ ?n ++ ?o ++ ?p ++ _ ++ _ ++ _
                     ++ ?rest) _ =>
          exists (a ++ b ++ c ++ d ++ e ++ f ++ g ++ h ++ i ++ j
                  ++ k ++ l ++ m ++ n ++ o ++ p ++ ", "), (", line height " ++ rest)
      end.
      now rewrite !append_assoc.
  - apply (paint_color_zero_opacity (fills node) node getBackgroundColor q Hq).
    reflexivity.
  - apply (paint_color_zero_opacity (strokes node) node getBorderColor q Hq).
    reflexivity.
Qed.

Lemma zero_opacity_is_full_witness :
  0 == 0
  /\ contains (renderNode rect_zero_opacity) "opacity at 100%"
  /\ renderNode rect_zero_opacity
     = "- A rectangle with dimensions 0x0px, positioned at (0,0)px, with background color rgba(255, 0, 0, 1), border width 0px color transparent, opacity at 100%, border radius 0px, and shadow ."
  /\ getBackgroundColor rect_zero_opacity = "rgba(255, 0, 0, 1)".
Proof.
  assert (Z : 0 == 0) by reflexivity.
  destruct (zero_opacity_is_full rect_zero_opacity 0 Z) as (A & B & _).
  split; [exact Z|].
  split; [exact (proj1 (A eq_refl eq_refl))|].
  split; [vm_compute; reflexivity|].
  exact (proj1 (B (mkPaint "SOLID" red (Some (Fin 0))) [] eq_refl eq_refl eq_refl)).
Defined.

(** ** The selection filter *)

Lemma convert_case_supported (node : SceneNode) :
  convert_case node = if is_supported node then Some node else None.
Proof.
  unfold convert_case, is_supported, is_kind, supported_kinds.
  cbn [existsb]. rewrite orb_false_r, !orb_assoc. reflexivity.
Qed.

Lemma convertIntoNodes_filter (l : list SceneNode) :
  convertIntoNodes l = filter is_supported l.
Proof.
  unfold convertIntoNodes. induction l as [|n l IH]; [reflexivity|].
  cbn [map filter_notEmpty filter]. rewrite convert_case_supported.
  destruct (is_supported n); now rewrite IH.
Qed.

Lemma is_supported_In (node : SceneNode) :
  is_supported node = true <-> In (type node) supported_kinds.
Proof.
  unfold is_supported. rewrite existsb_exists. split.
  - intros (k & Hk & E). apply String.eqb_eq in E. now rewrite E.
  - intros H. exists (type node). split; [exact H | apply String.eqb_refl].
Qed.

(** X1.  [convertIntoNodes] keeps, in their order and unchanged, exactly
    the nodes of the selection whose kind is one of the eleven listed, and
    converting twice is converting once. *)
Theorem convertIntoNodes_keeps_supported (selection : list SceneNode) :
  convertIntoNodes selection = filter is_supported selection
  /\ (forall node, In node (convertIntoNodes selection)
                   <-> In node selection /\ In (type node) supported_kinds)
  /\ convertIntoNodes (convertIntoNodes selection) = convertIntoNodes selection.
Proof.
  split; [apply convertIntoNodes_filter|]. split.
  - intros node. rewrite convertIntoNodes_filter, filter_In, is_supported_In.
    reflexivity.
  - rewrite !convertIntoNodes_filter.
    induction selection as [|n l IH]; [reflexivity|].
    cbn [filter]. destruct (is_supported n) eqn:E; [|exact IH].
    cbn [filter]. rewrite E. now rewrite IH.
Qed.

(** X2.  [convertIntoNodes] never looks at visibility: setting the
    visibility flags of the selected nodes anew, in whatever way, before
    the conversion or after it gives the same list, so that a hidden node
    is kept or dropped exactly as the same node shown.  Hence the kind
    filter of the conversion and the visibility filter of the renderer
    commute: hiding nodes before or after the conversion gives the same
    rendering. *)
Theorem Main_convert_visible (selection : list SceneNode) :
  (forall flag : SceneNode -> bool,
     convertIntoNodes (map (fun node => set_visible (flag node) node) selection)
     = map (fun node => set_visible (flag node) node)
           (convertIntoNodes selection))
  /\ (forall node, In node selection ->
        (In node (convertIntoNodes selection)
         <-> In (set_visible (negb (visible node)) node)
                (convertIntoNodes
                   (map (fun n : SceneNode => set_visible (negb (visible n)) n)
                        selection))))
  /\ Main (convertIntoNodes selection)
     = Main (convertIntoNodes
               (filter (fun node : SceneNode => visible node) selection))
  /\ convertIntoNodes (filter (fun node : SceneNode => visible node) selection)
     = filter (fun node : SceneNode => visible node)
              (convertIntoNodes selection).
Proof.
  assert (F : forall flag : SceneNode -> bool,
             convertIntoNodes
               (map (fun node => set_visible (flag node) node) selection)
             = map (fun node => set_visible (flag node) node)
                   (convertIntoNodes selection)).
  { intros flag. rewrite !convertIntoNodes_filter.
    induction selection as [|n l IH]; [reflexivity|].
    cbn [map filter].
    change (is_supported (set_visible (flag n) n)) with (is_supported n).
    destruct (is_supported n); cbn [map]; now rewrite IH. }
  assert (C : convertIntoNodes
                (filter (fun node : SceneNode => visible node) selection)
              = filter (fun node : SceneNode => visible node)
                       (convertIntoNodes selection)).
  { clear F. rewrite !convertIntoNodes_filter.
    induction selection as [|n l IH]; [reflexivity|].
    cbn [filter].
    destruct (visible n) eqn:V, (is_supported n) eqn:S; cbn [filter];
      rewrite ?V, ?S, IH; reflexivity. }
  split; [exact F|]. split; [|split; [|exact C]].
  - intros node Hin.
    rewrite (F (fun n : SceneNode => negb (visible n))).
    rewrite !convertIntoNodes_filter. split.
    + intros H. apply in_map_iff. exists node. now split.
    + intros H. apply filter_In. split; [exact Hin|].
      apply in_map_iff in H. destruct H as (m & E & Hm).
      apply filter_In in Hm. destruct Hm as [_ Sm].
      assert (T : type node = type m).
      { apply (f_equal (fun n : SceneNode => type n)) in E. exact (eq_sym E). }
      unfold is_supported in *. now rewrite T.
  - rewrite C. unfold Main, WidgetGenerator. now rewrite filter_visible_idem.
Qed.

(** ** Lists of nodes *)

Lemma join_app (sep : string) (l1 l2 : list string) :
  l1 <> [] -> l2 <> [] ->
  join sep (l1 ++ l2)%list = join sep l1 ++ sep ++ join sep l2.
Proof.
  intros H1 H2. induction l1 as [|s l1 IH]; [now elim H1|].
  destruct l1 as [|s' l1].
  - destruct l2 as [|t l2]; [now elim H2 | reflexivity].
  - change (join sep ((s :: s' :: l1) ++ l2)%list)
      with (s ++ sep ++ join sep ((s' :: l1) ++ l2)%list).
    rewrite IH by discriminate.
    change (join sep (s :: s' :: l1)) with (s ++ sep ++ join sep (s' :: l1)).
    now rewrite !append_assoc.
Qed.

Lemma filter_visible_nil (l : list SceneNode) :
  some_visible l = false ->
  filter (fun node : SceneNode => visible node) l = [].
Proof.
  unfold some_visible. induction l as [|n l IH]; [reflexivity|].
  cbn [existsb filter]. intros H. apply orb_false_iff in H.
  destruct H as [V H]. rewrite V. now apply IH.
Qed.

Lemma filter_visible_not_nil (l : list SceneNode) :
  some_visible l = true ->
  filter (fun node : SceneNode => visible node) l <> [].
Proof.
  unfold some_visible. induction l as [|n l IH]; [discriminate|].
  cbn [existsb filter]. destruct (visible n); [discriminate|].
  exact IH.
Qed.

(** X3.  Rendering a list made of two parts: when both hold a visible
    node, it is the rendering of the first, a line break, and the
    rendering of the second, in that order; a part without a visible node
    leaves no trace, not even a line break. *)
Theorem WidgetGenerator_app (l1 l2 : list SceneNode) :
  WidgetGenerator (l1 ++ l2)%list
  = match some_visible l1, some_visible l2 with
    | true, true => WidgetGenerator l1 ++ nl ++ WidgetGenerator l2
    | true, false => WidgetGenerator l1
    | false, _ => WidgetGenerator l2
    end.
Proof.
  unfold WidgetGenerator. rewrite filter_app, map_app.
  destruct (some_visible l1) eqn:V1.
  - destruct (some_visible l2) eqn:V2.
    + apply join_app.
      * intros E. apply map_eq_nil in E.
        now apply (filter_visible_not_nil l1 V1).
      * intros E. apply map_eq_nil in E.
        now apply (filter_visible_not_nil l2 V2).
    + rewrite (filter_visible_nil l2 V2). cbn [map]. now rewrite app_nil_r.
  - rewrite (filter_visible_nil l1 V1). reflexivity.
Qed.

Lemma render_case_nonempty (f : SceneNode -> string) (node : SceneNode) :
  exists c rest, render_case f node = String c rest.
Proof.
  unfold render_case.
  repeat match goal with
         | |- context [if ?b then _ else _] => destruct b
         end;
    eexists; eexists; reflexivity.
Qed.

Lemma join_nonempty (l : list string) (c : ascii) (rest : string)
    (l' : list string) :
  l = String c rest :: l' -> join nl l <> EmptyString.
Proof.
  intros ->. destruct l' as [|s l']; cbn [join append]; discriminate.
Qed.

(** X4.  The renderer's output is empty exactly when the list holds no
    visible node: every visible node, whatever its kind, gives some
    text. *)
Theorem WidgetGenerator_empty_iff (sceneNode : list SceneNode) :
  WidgetGenerator sceneNode = EmptyString <-> some_visible sceneNode = false.
Proof.
  split.
  - intros E. destruct (some_visible sceneNode) eqn:V; [|reflexivity].
    exfalso. unfold WidgetGenerator in E.
    pose proof (filter_visible_not_nil sceneNode V) as N.
    destruct (filter (fun node : SceneNode => visible node) sceneNode)
      as [|n l]; [now elim N|].
    cbn [map] in E. rewrite renderNode_eq in E.
    destruct (render_case_nonempty renderChild n) as (c & rest & R).
    rewrite R in E. exact (join_nonempty _ c rest _ eq_refl E).
  - intros V. unfold WidgetGenerator. now rewrite (filter_visible_nil _ V).
Qed.

(** X5.  Every node of a supported kind is rendered as text that opens
    with the bullet, a hyphen and a space. *)
Theorem supported_node_opens_with_bullet (node : SceneNode)
    (H : In (type node) supported_kinds) :
  exists rest, renderNode node = "- " ++ rest.
Proof.
  rewrite renderNode_eq. unfold render_case, is_kind.
  simpl in H.
  repeat (destruct H as [H|H];
          [rewrite <- H; cbn [String.eqb Ascii.eqb Bool.eqb andb orb];
           eexists; reflexivity|]).
  now elim H.
Qed.

Lemma supported_node_opens_with_bullet_witness :
  exists rest,
    renderNode (Node (bare "SECTION") []) = "- " ++ rest.
Proof.
  apply (supported_node_opens_with_bullet (Node (bare "SECTION") [])).
  simpl. tauto.
Defined.

(** X6.  The children of a node that is not of a container kind are never
    rendered: the text of such a node is the same whatever children it
    has. *)
Theorem leaf_ignores_children (p : NodeProps) (cs cs' : list SceneNode)
    (H : is_container (Node p cs) = false) :
  renderNode (Node p cs) = renderNode (Node p cs').
Proof.
  rewrite !renderNode_eq.
  unfold is_container, is_kind in H. cbn [props] in H.
  repeat (apply orb_false_iff in H; destruct H as [H ?]).
  unfold render_case, is_kind. cbn [props].
  repeat match goal with E : String.eqb _ _ = false |- _ => rewrite E; clear E end.
  cbn [orb]. reflexivity.
Qed.

Lemma leaf_ignores_children_witness :
  renderNode (Node (bare "BOOLEAN_OPERATION") [shown_rect; shown_rect])
  = "Unknown node type: BOOLEAN_OPERATION".
Proof.
  rewrite (leaf_ignores_children (bare "BOOLEAN_OPERATION")
             [shown_rect; shown_rect] [] eq_refl).
  reflexivity.
Defined.

(** X7.  An empty name is treated as no name: the node is rendered
    without the "(Component Name: ...)" annotation, exactly as the same
    node without a name. *)
Theorem empty_name_is_no_name (p : NodeProps) (cs : list SceneNode) :
  renderNode (Node (with_name (Some EmptyString) p) cs)
  = renderNode (Node (with_name None p) cs).
Proof. rewrite !renderNode_eq. reflexivity. Qed.

(** ** Lines *)

Lemma render_case_line (f : SceneNode -> string) (node : SceneNode) :
  is_kind node "LINE" = true -> render_case f node = generateLinePrompt node.
Proof.
  unfold render_case, is_kind. intros H. apply String.eqb_eq in H.
  rewrite H. reflexivity.
Qed.

Lemma zero_percent (q : Q) :
  q == 0 -> Number_toString (nearestOpacity (Fin q)) = "0".
Proof.
  destruct q as [n d]. unfold Qeq. simpl. intros H.
  assert (n = 0%Z) as -> by lia. reflexivity.
Qed.

(** X8.  A Line node keeps an opacity of 0: its line ends with "opacity
    at 0%", and only a missing opacity is read as 100% (unlike for
    rectangles, ellipses and texts, where 0 is read as 100%). *)
Theorem line_keeps_zero_opacity (node : SceneNode)
    (H : is_kind node "LINE" = true) :
  (forall q, q == 0 -> opacity node = Some (Fin q) ->
     exists pre, renderNode node = pre ++ ", and opacity at 0%.")
  /\ (opacity node = None ->
      exists pre, renderNode node = pre ++ ", and opacity at 100%.").
Proof.
  rewrite renderNode_eq, (render_case_line _ _ H). unfold generateLinePrompt.
  pose (pre := "- A line" ++ componentName node ++
               " from (" ++ sliceNum (x node) ++ "," ++ sliceNum (y node) ++
               ")px to (" ++ sliceNum (fadd (x node) (width node)) ++ "," ++
               sliceNum (fadd (y node) (height node)) ++
               ")px, with stroke width " ++
               sliceNum (match strokeWeight node with
                         | Some (Value w) => w
                         | _ => num 0
                         end) ++
               "px, color " ++ getBorderColor node).
  split.
  - intros q Hq Ho. rewrite Ho, (zero_percent q Hq).
    exists pre. unfold pre. now rewrite !append_assoc.
  - intros Ho. rewrite Ho, full_opacity_percent.
    exists pre. unfold pre. now rewrite !append_assoc.
Qed.

Lemma line_keeps_zero_opacity_witness :
  (exists pre, renderNode line_zero_opacity = pre ++ ", and opacity at 0%.")
  /\ (exists pre,
        renderNode (Node (bare "LINE") []) = pre ++ ", and opacity at 100%.").
Proof.
  split.
  - exact (proj1 (line_keeps_zero_opacity line_zero_opacity eq_refl)
             0 (Qeq_refl 0) eq_refl).
  - exact (proj2 (line_keeps_zero_opacity (Node (bare "LINE") []) eq_refl)
             eq_refl).
Defined.

(** ** Indentation, again *)

Lemma indent_from_no_pad (bol : bool) (s : string) :
  indent_from bol EmptyString s = s.
Proof.
  revert bol. induction s as [|c s IH]; intros bol; [reflexivity|].
  cbn [indent_from]. rewrite IH.
  destruct (bol && negb (blank_ahead (String c s))); reflexivity.
Qed.

Lemma spaces_add (n m : nat) :
  String_repeat " " (n + m) = String_repeat " " m ++ String_repeat " " n.
Proof.
  induction m as [|m IH].
  - now rewrite Nat.add_0_r.
  - rewrite Nat.add_succ_r. cbn [String_repeat]. rewrite IH.
    now rewrite append_assoc.
Qed.

Lemma is_line_spaces (n : nat) (l : string) :
  is_line (String_repeat " " n ++ l) = is_line l.
Proof. induction n as [|n IH]; [reflexivity | exact IH]. Qed.

Lemma is_blank_spaces (n : nat) (l : string) :
  is_blank (String_repeat " " n ++ l) = is_blank l.
Proof. induction n as [|n IH]; [reflexivity | exact IH]. Qed.

Lemma is_line_indent_line (n : nat) (l : string) :
  is_line (indent_line n l) = is_line l.
Proof.
  unfold indent_line. destruct (is_blank l); [reflexivity|].
  apply is_line_spaces.
Qed.

Lemma indent_line_twice (n m : nat) (l : string) :
  indent_line m (indent_line n l) = indent_line (n + m) l.
Proof.
  unfold indent_line. destruct (is_blank l) eqn:B.
  - now rewrite B.
  - rewrite is_blank_spaces, B, spaces_add. now rewrite append_assoc.
Qed.

(** X9.  Indenting by [n] and then by [m] is indenting by [n + m], for
    every text: the indentation of nested containers adds up, two spaces
    per level; and indenting by 0 changes nothing. *)
Theorem indentString_adds_up (s : string) (n m : nat) :
  indentString (indentString s n) m = indentString s (n + m)
  /\ indentString s 0 = s.
Proof.
  split; [|apply indent_from_no_pad].
  destruct (every_string_well_cut s) as (segs & last & -> & Hsegs & Hlast).
  induction Hsegs as [|[l t] segs [Hl Ht] _ IH]; cbn [unlines].
  - rewrite (indentString_last n last Hlast).
    rewrite (indentString_last (n + m) last Hlast).
    rewrite indentString_last by (now rewrite is_line_indent_line).
    apply indent_line_twice.
  - cbn [fst snd] in Hl, Ht.
    rewrite (indentString_step n l t _ Hl Ht).
    rewrite (indentString_step (n + m) l t _ Hl Ht).
    rewrite indentString_step by (rewrite ?is_line_indent_line; assumption).
    now rewrite IH, indent_line_twice.
Qed.

(** ** Escaping, again *)

(** X10.  The escaping of text content loses information: a line feed and
    the two characters backslash, n come out alike, since a backslash in
    the content is not escaped itself. *)
Theorem escape_newlines_not_injective (s t : string) :
  escape_newlines (s ++ nl ++ t) = escape_newlines (s ++ backslash_n ++ t)
  /\ s ++ nl ++ t <> s ++ backslash_n ++ t.
Proof.
  split.
  - now rewrite !escape_newlines_app.
  - induction s as [|c s IH]; cbn [append].
    + discriminate.
    + intros [= E]. now apply IH.
Qed.

(** ** Number formatting, again *)

Lemma Qfloor_unique (a : Q) (k : Z) :
  inject_Z k <= a -> a < inject_Z k + 1 -> Qfloor a = k.
Proof.
  intros Hlo Hhi.
  pose proof (Qfloor_le a) as F1. pose proof (Qlt_floor a) as F2.
  rewrite inject_Z_plus in F2. change (inject_Z 1) with 1 in F2.
  assert (A : inject_Z (Qfloor a) < inject_Z (k + 1)).
  { rewrite inject_Z_plus. change (inject_Z 1) with 1. lra. }
  assert (B : inject_Z k < inject_Z (Qfloor a + 1)).
  { rewrite inject_Z_plus. change (inject_Z 1) with 1. lra. }
  rewrite <- Zlt_Qlt in A, B. lia.
Qed.

(** When the rounded value has no hundredths left, only sign and integer
    part are printed. *)
Lemma sliceNum_whole (q : Q) (k : Z) :
  Qabs q < pow10 21 -> (0 <= k)%Z -> hundredths q = (100 * k)%Z ->
  sliceNum (Fin q)
  = (if (Qnum q <? 0)%Z then "-" else EmptyString) ++ decimal k.
Proof.
  intros B Hk Hn. unfold sliceNum, toFixed.
  assert (E : Qle_bool (pow10 21) (Qabs q) = false).
  { destruct (Qle_bool (pow10 21) (Qabs q)) eqn:E; [|reflexivity].
    apply Qle_bool_iff in E. exfalso. apply (Qlt_not_le _ _ B E). }
  rewrite E.
  pose proof (hundredths_nonneg q) as Hpos.
  rewrite (toFixed_digits_two (Qabs q) Hpos). fold (hundredths q). rewrite Hn.
  assert (D2 : (100 * k / 100 = k)%Z) by (Z.div_mod_to_equations; lia).
  assert (D1 : (100 * k / 10 mod 10 = 0)%Z) by (Z.div_mod_to_equations; lia).
  assert (D0 : (100 * k mod 10 = 0)%Z) by (Z.div_mod_to_equations; lia).
  rewrite D2, D1, D0.
  rewrite <- append_assoc, strip_dot00_fixed. reflexivity.
Qed.

(** X11.  An integer of magnitude below [10^21] is printed by [sliceNum]
    as its plain decimal digits, with a minus sign when negative and with
    no decimal point. *)
Theorem sliceNum_integer (z : Z) (H : (Z.abs z < 10 ^ 21)%Z) :
  sliceNum (num z)
  = (if (z <? 0)%Z then "-" else EmptyString) ++ decimal (Z.abs z).
Proof.
  unfold num.
  assert (A : Qabs (inject_Z z) = inject_Z (Z.abs z)) by reflexivity.
  apply (sliceNum_whole (inject_Z z) (Z.abs z)).
  - rewrite A. change (pow10 21) with (inject_Z (10 ^ 21)).
    now rewrite <- Zlt_Qlt.
  - apply Z.abs_nonneg.
  - unfold hundredths. rewrite A. apply Qfloor_unique.
    + rewrite inject_Z_mult. change (inject_Z 100) with 100. lra.
    + rewrite inject_Z_mult. change (inject_Z 100) with 100. lra.
Qed.

Lemma sliceNum_integer_witness :
  sliceNum (num (-1280)) = "-1280".
Proof.
  assert (B : (Z.abs (-1280) < 10 ^ 21)%Z) by reflexivity.
  exact (sliceNum_integer (-1280) B).
Defined.

(** X12.  A number nearer to zero than half a hundredth is printed as
    zero, and a negative one keeps its sign: the result is "-0". *)
Theorem sliceNum_tiny (q : Q) (H : Qabs q < 1 # 200) :
  sliceNum (Fin q) = if (Qnum q <? 0)%Z then "-0" else "0".
Proof.
  rewrite (sliceNum_whole q 0).
  - destruct (Qnum q <? 0)%Z; reflexivity.
  - assert (P : (1 # 200) < pow10 21) by reflexivity. lra.
  - lia.
  - unfold hundredths. apply Qfloor_unique.
    + pose proof (Qabs_nonneg q). change (inject_Z (100 * 0)) with 0. lra.
    + change (inject_Z (100 * 0)) with 0. lra.
Qed.

Lemma sliceNum_tiny_witness :
  Qabs (-(1 # 1000)) < 1 # 200 /\ sliceNum (Fin (-(1 # 1000))) = "-0".
Proof.
  assert (B : Qabs (-(1 # 1000)) < 1 # 200) by reflexivity.
  split; [exact B | exact (sliceNum_tiny (-(1 # 1000)) B)].
Defined.

(** ** The message handler, again *)

Lemma starts_with_self (s rest : string) : starts_with (s ++ rest) s.
Proof. now exists rest. Qed.

Lemma starts_with_app (a t s : string) :
  starts_with t s -> starts_with (a ++ t) (a ++ s).
Proof. intros (rest & ->). exists rest. now rewrite append_assoc. Qed.

Lemma starts_with_contains (t s : string) : starts_with t s -> contains t s.
Proof. intros (rest & ->). now exists EmptyString, rest. Qed.

Lemma contains_app_l (a t s : string) : contains t s -> contains (a ++ t) s.
Proof.
  intros (pre & post & ->). exists (a ++ pre), post. now rewrite append_assoc.
Qed.

(** X13.  The handler posts one message, of type "prompt", on a
    "generate" message, and nothing at all on any other message, whatever
    the selection. *)
Theorem onmessage_posts_once (selection : option (list SceneNode))
    (msg : Message) :
  List.length (onmessage selection msg)
  = (if String.eqb (msg_type msg) "generate" then 1 else 0)%nat
  /\ Forall (fun m => posted_type m = "prompt") (onmessage selection msg).
Proof.
  unfold onmessage. destruct (String.eqb (msg_type msg) "generate").
  - destruct selection as [[|n l]|]; split; try reflexivity;
      repeat constructor.
  - split; [reflexivity | constructor].
Qed.

Lemma ends_with_dot_app (s t : string) :
  ends_with_dot t -> ends_with_dot (s ++ t).
Proof. intros (pre & ->). exists (s ++ pre). now rewrite append_assoc. Qed.

Lemma ends_with_dot_literal (s : string) : ends_with_dot (s ++ ".").
Proof. now exists s. Qed.

Ltac dot_at_end :=
  repeat match goal with
         | |- ends_with_dot (_ ++ _ ++ _) => apply ends_with_dot_app
         end.

Lemma leaf_ends_with_dot (node : SceneNode) :
  In (type node) leaf_kinds -> ends_with_dot (renderNode node).
Proof.
  intros H. rewrite renderNode_eq. unfold render_case, is_kind.
  simpl in H.
  destruct H as [H|[H|[H|[H|[H|[]]]]]]; rewrite <- H;
    cbn [String.eqb Ascii.eqb Bool.eqb andb orb].
  - unfold generateContainerPrompt. dot_at_end. apply ends_with_dot_literal.
  - unfold generateContainerPrompt. dot_at_end. apply ends_with_dot_literal.
  - unfold generateTextPrompt. cbv zeta. dot_at_end.
    apply ends_with_dot_literal.
  - unfold generateLinePrompt. cbv zeta. dot_at_end.
    apply ends_with_dot_app. apply (ends_with_dot_literal "%").
  - unfold generateVectorPrompt. dot_at_end.
    apply ends_with_dot_app. apply (ends_with_dot_literal ")px").
Qed.

Lemma join_snoc (sep : string) (l : list string) (s : string) :
  exists pre, join sep (l ++ [s])%list = pre ++ s.
Proof.
  induction l as [|t l (pre & IH)].
  - now exists EmptyString.
  - destruct l as [|t' l].
    + exists (t ++ sep). cbn [app join]. now rewrite append_assoc.
    + exists (t ++ sep ++ pre).
      change (join sep ((t :: t' :: l) ++ [s])%list)
        with (t ++ sep ++ join sep ((t' :: l) ++ [s])%list).
      rewrite IH. now rewrite !append_assoc.
Qed.

Lemma leaf_is_supported (node : SceneNode) :
  In (type node) leaf_kinds -> is_supported node = true.
Proof.
  intros H. apply is_supported_In. simpl in H. simpl. tauto.
Qed.

(** X14.  No line break separates the rendered nodes from the heading
    that follows them: when the last selected node is a visible rectangle,
    ellipse, text, line or vector, its final full stop is directly
    followed by "### Implementation:" in the prompt. *)
Theorem heading_follows_last_line (before : list SceneNode)
    (node : SceneNode) (msg : Message)
    (Hg : msg_type msg = "generate") (Hv : visible node = true)
    (Hk : In (type node) leaf_kinds) :
  exists p,
    onmessage (Some (before ++ [node])%list) msg = [mkPosted "prompt" p]
    /\ contains p (".### Implementation:" ++ nl).
Proof.
  assert (R : exists pre, Main (convertIntoNodes (before ++ [node])%list)
                          = pre ++ ".").
  { rewrite convertIntoNodes_app. unfold convertIntoNodes at 2.
    cbn [map filter_notEmpty]. rewrite convert_case_supported.
    rewrite (leaf_is_supported node Hk).
    unfold Main, WidgetGenerator. rewrite filter_app, map_app.
    cbn [filter]. rewrite Hv. cbn [map].
    destruct (join_snoc nl
                (map renderNode
                   (filter (fun n : SceneNode => visible n)
                           (convertIntoNodes before)))
                (renderNode node)) as (pre & E).
    rewrite E. destruct (leaf_ends_with_dot node Hk) as (pre' & ->).
    exists (pre ++ pre'). now rewrite append_assoc. }
  destruct R as (pre & R).
  assert (S : exists n l, (before ++ [node])%list = n :: l).
  { destruct before as [|b before]; eexists; eexists; reflexivity. }
  destruct S as (n & l & S).
  unfold onmessage. rewrite Hg. cbn [String.eqb].
  change (String.eqb "generate" "generate") with true. cbv iota.
  rewrite S. rewrite <- S. eexists. split; [reflexivity|].
  rewrite R. unfold layout, implementation_and_usage.
  change (".### Implementation:" ++ nl)
    with ("." ++ "### Implementation:" ++ nl).
  rewrite !append_assoc.
  do 6 apply contains_app_l. apply starts_with_contains.
  do 2 apply starts_with_app. apply starts_with_self.
Qed.

Lemma heading_follows_last_line_witness :
  exists p,
    onmessage (Some [slice_node; shown_rect]) sample_msg = [mkPosted "prompt" p]
    /\ contains p (".### Implementation:" ++ nl).
Proof.
  apply (heading_follows_last_line [slice_node] shown_rect sample_msg eq_refl
           eq_refl).
  simpl. tauto.
Defined.

(** X15.  The request for a database schema is part of the prompt exactly
    for a database keyword that is neither empty nor "null": with such a
    keyword the line naming it stands right before the Layout heading, and
    the empty keyword and "null" give the same prompt. *)
Theorem database_line (selection : option (list SceneNode)) (msg : Message) :
  onmessage selection (with_database EmptyString msg)
  = onmessage selection (with_database "null" msg)
  /\ (forall n l,
        msg_type msg = "generate" ->
        database msg <> EmptyString -> database msg <> "null" ->
        exists p,
          onmessage (Some (n :: l)) msg = [mkPosted "prompt" p]
          /\ contains p
               ("- **Database**: Privide the  " ++ database msg ++
                " schema to create the database table. for any input fields."
                ++ nl ++ nl ++ "### Layout:" ++ nl)).
Proof.
  split; [reflexivity|].
  intros n l Hg D1 D2. unfold onmessage. rewrite Hg.
  change (String.eqb "generate" "generate") with true. cbv iota.
  eexists. split; [reflexivity|].
  unfold overview, layout.
  apply String.eqb_neq in D1, D2. rewrite D1, D2. cbn [negb andb].
  rewrite !append_assoc.
  do 28 apply contains_app_l. apply starts_with_contains.
  do 6 apply starts_with_app. apply starts_with_self.
Qed.

Lemma database_line_witness :
  exists p,
    onmessage (Some [shown_rect]) (with_database "PostgreSQL" sample_msg)
    = [mkPosted "prompt" p]
    /\ contains p
         ("- **Database**: Privide the  PostgreSQL schema to create the database table. for any input fields."
          ++ nl ++ nl ++ "### Layout:" ++ nl).
Proof.
  refine (proj2 (database_line None (with_database "PostgreSQL" sample_msg))
            shown_rect [] eq_refl _ _); discriminate.
Defined.

(** ** Style extractors, again *)

Lemma sliceNum_zero (q : Q) : q == 0 -> sliceNum (Fin q) = "0".
Proof.
  intros Hq.
  assert (N : Qnum q = 0%Z).
  { unfold Qeq in Hq. simpl in Hq. lia. }
  assert (A : Qabs q == 0) by (rewrite Hq; reflexivity).
  rewrite (sliceNum_whole q 0).
  - rewrite N. reflexivity.
  - rewrite A. reflexivity.
  - lia.
  - unfold hundredths. apply Qfloor_unique.
    + rewrite A. discriminate.
    + rewrite A. reflexivity.
Qed.

(** X16.  A stroke weight or a corner radius of zero is printed as "0px",
    which is also what a missing or mixed one gives: the two cannot be
    told apart in the output. *)
Theorem zero_width_like_absent (node : SceneNode) (q : Q) (H : q == 0) :
  (strokeWeight node = Some (Value (Fin q)) \/ strokeWeight node = Some Mixed
   \/ strokeWeight node = None -> getBorderWidth node = "0px")
  /\ (cornerRadius node = Some (Value (Fin q)) \/ cornerRadius node = Some Mixed
      \/ cornerRadius node = None -> getBorderRadius node = "0px").
Proof.
  unfold getBorderWidth, getBorderRadius.
  split; intros [E|[E|E]]; rewrite E; try reflexivity;
    now rewrite (sliceNum_zero q H).
Qed.

Lemma zero_width_like_absent_witness :
  getBorderWidth
    (Node (with_strokeWeight (Some (Value (Fin 0))) (bare "RECTANGLE")) [])
  = "0px"
  /\ getBorderWidth (Node (bare "RECTANGLE") []) = "0px".
Proof.
  split.
  - apply (proj1 (zero_width_like_absent
                    (Node (with_strokeWeight (Some (Value (Fin 0)))
                                             (bare "RECTANGLE")) [])
                    0 (Qeq_refl 0))).
    now left.
  - apply (proj1 (zero_width_like_absent (Node (bare "RECTANGLE") [])
                    0 (Qeq_refl 0))).
    now right; right.
Defined.

Lemma shadow_opaque (effect : Effect) :
  effect_opacity effect = None ->
  exists pre,
    sliceNum (vector_x (offset effect)) ++ "px " ++
    sliceNum (vector_y (offset effect)) ++ "px " ++
    sliceNum (radius effect) ++ "px " ++
    rgbaFromRGB (effect_color effect) (effect_opacity effect)
    = pre ++ ", 1)".
Proof.
  intros ->. unfold rgbaFromRGB. rewrite one_prints.
  exists (sliceNum (vector_x (offset effect)) ++ "px " ++
          sliceNum (vector_y (offset effect)) ++ "px " ++
          sliceNum (radius effect) ++ "px " ++
          "rgba(" ++
          Number_toString (Math_round (fmul (r (effect_color effect)) (num 255)))
          ++ ", " ++
          Number_toString (Math_round (fmul (g (effect_color effect)) (num 255)))
          ++ ", " ++
          Number_toString (Math_round (fmul (b (effect_color effect)) (num 255)))).
  now rewrite !append_assoc.
Qed.

(** X17.  [getShadow] gives one string for each visible drop shadow, in
    the order of the effects list, and none for any other effect; and
    when the effects carry no opacity of their own, as drop shadows do,
    every shadow colour is printed with alpha 1. *)
Theorem shadows_of_visible_drop_shadows (node : SceneNode)
    (es : list Effect) (H : effects node = Some es) :
  List.length (getShadow node) = List.length (filter counts_as_shadow es)
  /\ (forall es1 e es2, es = (es1 ++ e :: es2)%list ->
        counts_as_shadow e = false ->
        getShadow node
        = getShadow (Node (with_effects (Some (es1 ++ es2)%list) node) []))
  /\ (Forall (fun e => effect_opacity e = None) es ->
      Forall (fun s => exists pre, s = pre ++ ", 1)") (getShadow node)).
Proof.
  unfold getShadow. rewrite H. split; [apply length_map|]. split.
  - intros es1 e es2 -> He. cbn [props with_effects effects].
    rewrite !filter_app. cbn [filter].
    unfold counts_as_shadow in He. now rewrite He.
  - intros A. apply Forall_map. apply Forall_forall.
    intros e He. apply filter_In in He. destruct He as [He _].
    rewrite Forall_forall in A. apply shadow_opaque. now apply A.
Qed.

Lemma shadows_of_visible_drop_shadows_witness :
  getShadow
    (Node (with_effects (Some [layer_blur; drop_shadow; hidden_shadow])
                        (bare "RECTANGLE")) [])
  = ["0px 4px 8px rgba(255, 0, 0, 1)"].
Proof.
  refine (eq_trans
            (proj1 (proj2 (shadows_of_visible_drop_shadows
                             (Node (with_effects
                                      (Some [layer_blur; drop_shadow;
                                             hidden_shadow])
                                      (bare "RECTANGLE")) [])
                             [layer_blur; drop_shadow; hidden_shadow] eq_refl))
               [] layer_blur [drop_shadow; hidden_shadow] eq_refl eq_refl) _).
  vm_compute. reflexivity.
Defined.

(** ** Vectors *)

Lemma render_case_vector (f : SceneNode -> string) (node : SceneNode) :
  is_kind node "VECTOR" = true ->
  render_case f node = generateVectorPrompt node.
Proof.
  unfold render_case, is_kind. intros H. apply String.eqb_eq in H.
  rewrite H. reflexivity.
Qed.

(** X18.  The line of a Vector node depends on its name, size and
    position only: two vectors that agree on those are rendered alike,
    whatever their fills, strokes, opacity, effects or children. *)
Theorem vector_geometry_only (p p' : NodeProps) (cs cs' : list SceneNode)
    (Hp : type p = "VECTOR") (Hp' : type p' = "VECTOR")
    (Hn : name p = name p')
    (Hg : (x p, y p, width p, height p) = (x p', y p', width p', height p')) :
  renderNode (Node p cs) = renderNode (Node p' cs').
Proof.
  injection Hg as Hx Hy Hw Hh.
  rewrite !renderNode_eq, !render_case_vector
    by (unfold is_kind; cbn [props]; rewrite ?Hp, ?Hp'; reflexivity).
  unfold generateVectorPrompt, componentName. cbn [props].
  now rewrite Hn, Hx, Hy, Hw, Hh.
Qed.

Lemma vector_geometry_only_witness :
  renderNode (Node (with_fills (Some (Value [solid_red]))
                      (with_opacity (Some (lit (1 # 2))) (bare "VECTOR")))
                   [shown_rect])
  = "- A vector node with dimensions 0x0px, positioned at (0,0)px.".
Proof.
  rewrite (vector_geometry_only
             (with_fills (Some (Value [solid_red]))
                (with_opacity (Some (lit (1 # 2))) (bare "VECTOR")))
             (bare "VECTOR") [shown_rect] [] eq_refl eq_refl eq_refl eq_refl).
  vm_compute. reflexivity.
Defined.

Lemma no_padding_prints_zero (side : option number) :
  no_padding side -> sliceNum (or_default side (num 0)) = "0".
Proof.
  intros [->|(q & Hq & ->)]; [reflexivity|].
  rewrite (or_default_zero q _ Hq). reflexivity.
Qed.

(** X19.  [getPadding] prints the four sides in the order top, right,
    bottom, left, a missing or zero side as 0px; but it looks for the left
    padding only to decide whether the node has padding at all: without a
    left padding the answer is the single "0px", whatever the other sides
    hold. *)
Theorem padding_sides (node : SceneNode) :
  (paddingLeft node = None -> getPadding node = "0px")
  /\ (paddingLeft node <> None ->
      no_padding (paddingTop node) -> no_padding (paddingRight node) ->
      no_padding (paddingBottom node) -> no_padding (paddingLeft node) ->
      getPadding node = "0px 0px 0px 0px")
  /\ (forall l, paddingLeft node = Some l ->
      getPadding node
      = sliceNum (or_default (paddingTop node) (num 0)) ++ "px " ++
        sliceNum (or_default (paddingRight node) (num 0)) ++ "px " ++
        sliceNum (or_default (paddingBottom node) (num 0)) ++ "px " ++
        sliceNum (or_default (Some l) (num 0)) ++ "px").
Proof.
  unfold getPadding. split; [|split].
  - now intros ->.
  - intros N T R B L.
    rewrite (no_padding_prints_zero _ T), (no_padding_prints_zero _ R),
      (no_padding_prints_zero _ B), (no_padding_prints_zero _ L).
    destruct (paddingLeft node); [reflexivity | now elim N].
  - now intros l ->.
Qed.

Lemma padding_sides_witness :
  getPadding
    (Node (with_padding (Some (num 8)) (Some (num 8)) (Some (num 8)) None
                        (bare "FRAME")) [])
  = "0px"
  /\ getPadding
       (Node (with_padding None None None (Some (Fin 0)) (bare "FRAME")) [])
     = "0px 0px 0px 0px".
Proof.
  split.
  - exact (proj1 (padding_sides
                    (Node (with_padding (Some (num 8)) (Some (num 8))
                                        (Some (num 8)) None (bare "FRAME")) []))
             eq_refl).
  - refine (proj1 (proj2 (padding_sides
                            (Node (with_padding None None None (Some (Fin 0))
                                                (bare "FRAME")) [])))
              _ _ _ _ _).
    + discriminate.
    + now left.
    + now left.
    + now left.
    + right. exists 0. split; reflexivity.
Defined.
